(** * Weather Shopper page objects: a shallow embedding and its properties

    The development follows the page objects of the Selenium suite
    ([pages/home_page.py], [pages/product_page.py], [pages/cart_page.py],
    [pages/payment_page.py]).  Text read from the browser is a list of
    characters, Python [int]s are [Z], a product dictionary is a record, an
    exception is a constructor of [exn], and the methods that drive the browser
    are computations in a small state-and-exception monad whose state records
    what the driver was asked to do.

    Part I holds the definitions, one module per Python class; Part II holds
    the lemmas and the theorems about them. *)

From Stdlib Require Import List Bool Ascii String ZArith NArith Lia.
Import ListNotations.
Local Open Scope Z_scope.

(* ===================================================================== *)
(** * Part I: definitions                                                *)
(* ===================================================================== *)

(** ** Python text

    A [str] is modelled as a list of characters; a character is a code point
    in the range U+0000..U+00FF (Latin-1), the range of [ascii].  The
    character classes below are those of Python 3 on that range. *)

Module PyStr.

Definition text := list ascii.

(** A literal of the source. *)
Definition py (s : string) : text := list_ascii_of_string s.

Definition code (c : ascii) : N := N_of_ascii c.

Definition between (lo hi n : N) : bool := ((lo <=? n) && (n <=? hi))%N.

(** [re]'s [\d] on a [str] pattern, and the characters [int] accepts as
    digits: the decimal digits; on Latin-1 these are '0'..'9'. *)
Definition isdecimal (c : ascii) : bool := between 48 57 (code c).

(** [str.isdigit]: the decimal digits and, on Latin-1, the superscripts
    U+00B2, U+00B3 and U+00B9, which [int] and [\d] both refuse. *)
Definition isdigit (c : ascii) : bool :=
  isdecimal c || (code c =? 178)%N || (code c =? 179)%N || (code c =? 185)%N.

(** [str.isspace] on Latin-1. *)
Definition isspace (c : ascii) : bool :=
  between 9 13 (code c) || between 28 32 (code c)
  || (code c =? 133)%N || (code c =? 160)%N.

(** [str.lower] on one character: A-Z and the accented capitals
    U+00C0..U+00DE (the multiplication sign U+00D7 apart). *)
Definition lower_char (c : ascii) : ascii :=
  if between 65 90 (code c)
     || (between 192 222 (code c) && negb (code c =? 215)%N)
  then ascii_of_N (code c + 32)
  else c.

Definition lower (s : text) : text := map lower_char s.

(** [s.startswith(prefix)]. *)
Fixpoint startswith (s prefix : text) : bool :=
  match prefix, s with
  | [], _ => true
  | _ :: _, [] => false
  | p :: ps, c :: cs => Ascii.eqb p c && startswith cs ps
  end.

(** [a == b]. *)
Fixpoint str_eqb (a b : text) : bool :=
  match a, b with
  | [], [] => true
  | x :: a', y :: b' => Ascii.eqb x y && str_eqb a' b'
  | _, _ => false
  end.

(** [sub in s]. *)
Fixpoint str_in (sub s : text) : bool :=
  startswith s sub
  || match s with
     | [] => false
     | _ :: cs => str_in sub cs
     end.

(** [s.split(sep)] for a one-character separator: one more piece than there
    are separators. *)
Fixpoint split_on (sep : ascii) (s : text) : list text :=
  match s with
  | [] => [[]]
  | c :: cs =>
      if Ascii.eqb c sep then [] :: split_on sep cs
      else match split_on sep cs with
           | piece :: pieces => (c :: piece) :: pieces
           | [] => [[c]]
           end
  end.

Fixpoint dropwhile (f : ascii -> bool) (s : text) : text :=
  match s with
  | [] => []
  | c :: cs => if f c then dropwhile f cs else s
  end.

Fixpoint takewhile (f : ascii -> bool) (s : text) : text :=
  match s with
  | [] => []
  | c :: cs => if f c then c :: takewhile f cs else []
  end.

Definition lstrip (s : text) : text := dropwhile isspace s.
Definition rstrip (s : text) : text := rev (dropwhile isspace (rev s)).

(** [s.strip()]. *)
Definition strip (s : text) : text := rstrip (lstrip s).

(** [s.replace(c, '')] for a one-character [c]. *)
Definition remove_char (c : ascii) (s : text) : text :=
  filter (fun x => negb (Ascii.eqb x c)) s.

(** [any(char.isdigit() for char in s)]. *)
Definition any_isdigit (s : text) : bool := existsb isdigit s.

Definition digit_value (c : ascii) : Z := Z.of_N (code c) - 48.

(** The number a run of decimal digits denotes, most significant first. *)
Definition digits_value (s : text) : Z :=
  fold_left (fun acc c => 10 * acc + digit_value c) s 0.

(** [re.search(r'(\d+)', s)]: the leftmost maximal run of decimal digits,
    [None] when [s] has none. *)
Definition re_search_digits (s : text) : option text :=
  match takewhile isdecimal (dropwhile (fun c => negb (isdecimal c)) s) with
  | [] => None
  | run => Some run
  end.

(** [sub] occurs in [s]. *)
Definition Substring (sub s : text) : Prop :=
  exists pre post, s = pre ++ sub ++ post.

Definition all_decimal (s : text) : Prop :=
  Forall (fun c => isdecimal c = true) s.

Definition no_decimal (s : text) : Prop :=
  Forall (fun c => isdecimal c = false) s.

(** [s] is empty or begins with a character that is no decimal digit. *)
Definition digit_free_start (s : text) : Prop :=
  match s with
  | [] => True
  | c :: _ => isdecimal c = false
  end.

End PyStr.

(** ** Exceptions, results and the driver monad *)

Module Py.
Import PyStr.

Inductive exn : Type :=
  | IndexError
  | ValueError (msg : text)
  | TimeoutException
  | NoSuchElementException
  | AttributeError
  | PyException (msg : text).

Inductive result (A : Type) : Type :=
  | Ok (a : A)
  | Raise (e : exn).
Arguments Ok {A} a.
Arguments Raise {A} e.

Definition result_bind {A B} (r : result A) (k : A -> result B) : result B :=
  match r with
  | Ok a => k a
  | Raise e => Raise e
  end.

(** [sys.get_int_max_str_digits()], at its default. *)
Definition int_max_str_digits : nat := 4300.

(** [int(s)] on the strings its call sites build (characters that passed
    [isdigit] or matched [\d]): the empty string, a string with a character
    that is no decimal digit, and a string of more than
    [int_max_str_digits] digits (leading zeros count) raise [ValueError]. *)
Definition py_int (s : text) : result Z :=
  match s with
  | [] => Raise (ValueError (py "invalid literal for int()"))
  | _ =>
      if forallb isdecimal s then
        if (List.length s <=? int_max_str_digits)%nat
        then Ok (digits_value s)
        else Raise (ValueError
                      (py "Exceeds the limit for integer string conversion"))
      else Raise (ValueError (py "invalid literal for int()"))
  end.

(** A computation that drives the browser: it reads and updates a state [S]
    and either returns or raises; the state reached is kept on both ways
    out. *)
Definition M (S A : Type) : Type := S -> result A * S.

Definition ret {S A} (a : A) : M S A := fun s => (Ok a, s).
Definition raise {S A} (e : exn) : M S A := fun s => (Raise e, s).
Definition bind {S A B} (c : M S A) (k : A -> M S B) : M S B :=
  fun s => match c s with
           | (Ok a, s') => k a s'
           | (Raise e, s') => (Raise e, s')
           end.
(** [try: c  except Exception as e: h e]. *)
Definition try_except {S A} (c : M S A) (h : exn -> M S A) : M S A :=
  fun s => match c s with
           | (Ok a, s') => (Ok a, s')
           | (Raise e, s') => h e s'
           end.
Definition lift {S A} (r : result A) : M S A := fun s => (r, s).
Definition modify {S} (f : S -> S) : M S unit := fun s => (Ok tt, f s).

(** A handle on an element of the page. *)
Definition handle := nat.

(** What a loop of the shape [for x in l: ... out.append(y)] leaves in [out]
    when its body appends [y] for [f x = Some y] and nothing otherwise. *)
Fixpoint kept {A B} (f : A -> option B) (l : list A) : list B :=
  match l with
  | [] => []
  | x :: rest =>
      match f x with
      | Some y => y :: kept f rest
      | None => kept f rest
      end
  end.

End Py.

Declare Scope py_scope.
Delimit Scope py_scope with py.
Notation "x <- c ;; k" := (Py.bind c (fun x => k))
  (at level 61, c at next level, right associativity) : py_scope.
Notation "c ;; k" := (Py.bind c (fun _ => k))
  (at level 61, right associativity) : py_scope.
Notation "'let?' x := r 'in' k" := (Py.result_bind r (fun x => k))
  (at level 61, x name, r at next level, right associativity) : py_scope.
Local Open Scope py_scope.

(** ** [HomePage]: the temperature reading and the category it selects *)

Module HomePage.
Import PyStr Py.

Inductive locator : Type :=
  | TEMPERATURE_DISPLAY
  | MOISTURIZERS_BUTTON
  | SUNSCREENS_BUTTON.

(** What the home page offers: the text of the temperature display ([None]
    when the element is not found) and which buttons become clickable within
    the wait of [click_element]. *)
Record page : Type := {
  temperature_text : option text;
  clickable : locator -> bool
}.

(** The driver's state on this page: the buttons clicked so far, oldest
    first. *)
Definition clicks := list locator.

(** [get_current_temperature]: [int(re.search(r'\d+', temp_text).group())];
    a text with no digit makes [re.search] return [None], and the
    [AttributeError] is turned into an [Exception]. *)
Definition get_current_temperature (p : page) : result Z :=
  match temperature_text p with
  | None => Raise (PyException (py "Element not found"))
  | Some temp_text =>
      match re_search_digits temp_text with
      | None => Raise (PyException (py "Failed to parse temperature from text"))
      | Some run =>
          match py_int run with
          | Ok temperature => Ok temperature
          | Raise _ =>
              Raise (PyException (py "Failed to parse temperature from text"))
          end
      end
  end.

(** The three predicates compare the value [temperature] that
    [self.get_current_temperature()] returned. *)
Definition should_buy_moisturizers (temperature : Z) : bool :=
  temperature <? 19.

Definition should_buy_sunscreens (temperature : Z) : bool :=
  temperature >? 34.

Definition is_moderate_temperature (temperature : Z) : bool :=
  (19 <=? temperature) && (temperature <=? 34).

(** [BasePage.click_element]: waits for the element to be clickable, clicks
    it, and raises when the wait times out. *)
Definition click_element (p : page) (l : locator) : M clicks unit :=
  if clickable p l then modify (fun done => done ++ [l])
  else raise (PyException (py "Element not clickable")).

Definition click_moisturizers_button (p : page) : M clicks unit :=
  click_element p MOISTURIZERS_BUTTON.

Definition click_sunscreens_button (p : page) : M clicks unit :=
  click_element p SUNSCREENS_BUTTON.

(** [navigate_to_appropriate_category], at the reading [temperature]. *)
Definition navigate_to_appropriate_category (p : page) (temperature : Z)
  : M clicks text :=
  if should_buy_moisturizers temperature then
    click_moisturizers_button p ;; ret (py "moisturizers")
  else if should_buy_sunscreens temperature then
    click_sunscreens_button p ;; ret (py "sunscreens")
  else ret (py "none").

(** The method as it runs on a page: the reading first, then the branch. *)
Definition navigate (p : page) : M clicks text :=
  temperature <- lift (get_current_temperature p) ;;
  navigate_to_appropriate_category p temperature.

End HomePage.

(** ** [ProductPage]: catalog extraction, filtering, selection, adding *)

Module ProductPage.
Import PyStr Py.

(** A catalog card ([.col-4]) as the driver shows it: its element, the texts
    of its [p] children in document order, and its [button] child if it has
    one. *)
Record card : Type := {
  card_element : handle;
  card_paragraphs : list text;
  card_button : option handle
}.

(** The product dictionary, with its four keys. *)
Record product : Type := {
  name : text;
  price : Z;
  element : handle;
  add_to_cart_button : handle
}.

(** The first paragraph whose text contains ["Price"]. *)
Definition price_label (paragraphs : list text) : option text :=
  find (fun p => str_in (py "Price") p) paragraphs.

(** The body of the loop of [get_all_products] on one card: [Some] is the
    product appended, [None] is [continue] (no paragraph, no price label, or
    an exception: [int] on an unparsable price, no [button]). *)
Definition read_card (elem : card) : option product :=
  match card_paragraphs elem with
  | [] => None
  | first :: _ =>
      let name := strip first in
      match price_label (card_paragraphs elem) with
      | None => None
      | Some [] => None
      | Some price_text =>
          match py_int (filter isdigit price_text) with
          | Raise _ => None
          | Ok price =>
              match card_button elem with
              | None => None
              | Some add_button =>
                  Some {| name := name; price := price;
                          element := card_element elem;
                          add_to_cart_button := add_button |}
              end
          end
      end
  end.

Fixpoint read_cards (product_elements : list card) (all_products : list product)
  : list product :=
  match product_elements with
  | [] => all_products
  | elem :: rest =>
      match read_card elem with
      | Some product => read_cards rest (all_products ++ [product])
      | None => read_cards rest all_products
      end
  end.

(** [get_all_products]: the wait for a first [.col-4] times out on a page
    with no card. *)
Definition get_all_products (cards : list card) : result (list product) :=
  match cards with
  | [] => Raise TimeoutException
  | _ => Ok (read_cards cards [])
  end.

(** [for product in products: if test(product): filtered.append(product)]. *)
Fixpoint collect (test : product -> bool) (products filtered : list product)
  : list product :=
  match products with
  | [] => filtered
  | product :: rest =>
      if test product then collect test rest (filtered ++ [product])
      else collect test rest filtered
  end.

Definition filter_products_by_ingredient
  (products : list product) (ingredient : text) : result (list product) :=
  if str_in (py "SPF") ingredient then
    match nth_error (split_on "-"%char ingredient) 1 with
    | None => Raise IndexError
    | Some spf_number =>
        Ok (collect
              (fun product =>
                 str_in (py "SPF-" ++ spf_number) (name product)
                 || str_in (py "SPF " ++ spf_number) (name product))
              products [])
    end
  else
    Ok (collect
          (fun product => str_in (lower ingredient) (lower (name product)))
          products []).

(** [min(products, key=...)] after its first element: a later element
    replaces the current one only when its key is strictly smaller. *)
Fixpoint min_by_price (current : product) (rest : list product) : product :=
  match rest with
  | [] => current
  | x :: rest' =>
      if price x <? price current then min_by_price x rest'
      else min_by_price current rest'
  end.

Definition find_cheapest_product (products : list product) : option product :=
  match products with
  | [] => None
  | first :: rest => Some (min_by_price first rest)
  end.

Definition select_moisturizer_products (cards : list card)
  : result (option product * option product) :=
  let? all_products := get_all_products cards in
  let? aloe_products := filter_products_by_ingredient all_products (py "Aloe") in
  let cheapest_aloe := find_cheapest_product aloe_products in
  let? almond_products :=
    filter_products_by_ingredient all_products (py "Almond") in
  let cheapest_almond := find_cheapest_product almond_products in
  Ok (cheapest_aloe, cheapest_almond).

Definition select_sunscreen_products (cards : list card)
  : result (option product * option product) :=
  let? all_products := get_all_products cards in
  let? spf30_products :=
    filter_products_by_ingredient all_products (py "SPF-30") in
  let cheapest_spf30 := find_cheapest_product spf30_products in
  let? spf50_products :=
    filter_products_by_ingredient all_products (py "SPF-50") in
  let cheapest_spf50 := find_cheapest_product spf50_products in
  Ok (cheapest_spf30, cheapest_spf50).

(** The catalog page: its cards, and which add buttons become clickable
    within the wait of [add_product_to_cart]. *)
Record page : Type := {
  cards : list card;
  button_clickable : handle -> bool
}.

(** The driver's state on this page: the add buttons clicked so far, oldest
    first. *)
Definition added := list handle.

(** [add_product_to_cart]: [None] raises; otherwise the button is waited for
    and clicked, and a timeout of that wait is logged and raised again.  The
    later wait on the cart indicator only logs. *)
Definition add_product_to_cart (pg : page) (product : option product)
  : M added unit :=
  match product with
  | Some p =>
      try_except
        (if button_clickable pg (add_to_cart_button p)
         then modify (fun done => done ++ [add_to_cart_button p])
         else raise TimeoutException)
        (fun e => raise e)
  | None => raise (PyException (py "Cannot add product to cart: None"))
  end.

Definition add_selected_products_to_cart (pg : page) (product_category : text)
  : M added ((product * product) * Z) :=
  pair <-
    (if str_eqb product_category (py "moisturizers") then
       lift (select_moisturizer_products (cards pg))
     else if str_eqb product_category (py "sunscreens") then
       lift (select_sunscreen_products (cards pg))
     else
       raise (ValueError (py "Unknown product category: " ++ product_category))) ;;
  match pair with
  | (Some product1, Some product2) =>
      add_product_to_cart pg (Some product1) ;;
      add_product_to_cart pg (Some product2) ;;
      let total_price := price product1 + price product2 in
      ret ((product1, product2), total_price)
  | _ =>
      raise (PyException
               (py "Could not find required products for " ++ product_category))
  end.

(** The reading of the claim that an SPF tag is matched as an exact SPF
    value: [name] has an occurrence of ["SPF-<n>"] or ["SPF <n>"] that no
    further decimal digit follows. *)
Definition followed_by_digit (s : text) : bool :=
  match s with
  | c :: _ => isdecimal c
  | [] => false
  end.

Fixpoint exact_occurrence (marker s : text) : bool :=
  (startswith s marker && negb (followed_by_digit (skipn (List.length marker) s)))
  || match s with
     | [] => false
     | _ :: cs => exact_occurrence marker cs
     end.

(** The reading of the claim that a price is the first contiguous digit run
    of the price label: the number that run denotes, [None] when the label
    has no decimal digit. *)
Definition spec_first_digit_run_price (label : text) : option Z :=
  option_map digits_value (re_search_digits label).

Definition spec_exact_spf_match (spf_number name : text) : bool :=
  exact_occurrence (py "SPF-" ++ spf_number) name
  || exact_occurrence (py "SPF " ++ spf_number) name.

(** [choice] is what a search for the cheapest product of [catalog] that
    satisfies [wanted] may answer: a wanted product of the catalog that no
    wanted product undercuts, or [None] when the catalog has no wanted
    product. *)
Definition cheapest_among
  (catalog : list product) (wanted : product -> Prop) (choice : option product)
  : Prop :=
  match choice with
  | Some p =>
      In p catalog /\ wanted p
      /\ forall q, In q catalog -> wanted q -> price p <= price q
  | None => forall q, In q catalog -> ~ wanted q
  end.

End ProductPage.

(** ** [CartPage]: the cart snapshot and its totals *)

Module CartPage.
Import PyStr Py.

(** A cart line, with the three keys of the dictionary. *)
Record cart_item : Type := {
  name : text;
  price : Z;
  price_text : text
}.

(** A table row as the driver shows it: the texts of its [td] cells. *)
Definition row := list text.

(** The cart page: whether the cart table shows up within the wait, the
    rows the first successful selector finds, and the text of the [total]
    element ([None] when it is not found). *)
Record page : Type := {
  table_present : bool;
  rows : list row;
  total_text : option text
}.

(** The body of the parsing loop of [get_cart_items] on one row: [Some] is
    the line appended, [None] a row that leaves the list as it is. *)
Definition read_row (cells : row) : option cart_item :=
  match cells with
  | cell0 :: cell1 :: _ =>
      let name := strip cell0 in
      let price_text := strip cell1 in
      if negb (any_isdigit price_text) then None
      else
        match re_search_digits (remove_char ","%char price_text) with
        | Some group1 =>
            match py_int group1 with
            | Ok price =>
                Some {| name := name; price := price;
                        price_text := price_text |}
            | Raise _ => None
            end
        | None => None
        end
  | _ => None
  end.

Fixpoint read_rows (rows : list row) (cart_items : list cart_item)
  : list cart_item :=
  match rows with
  | [] => cart_items
  | cells :: rest =>
      match read_row cells with
      | Some item => read_rows rest (cart_items ++ [item])
      | None => read_rows rest cart_items
      end
  end.

(** [get_cart_items]: a table that never shows up raises inside the outer
    [try], which returns the empty list; so does a page with no row. *)
Definition get_cart_items (pg : page) : list cart_item :=
  if table_present pg then
    match rows pg with
    | [] => []
    | found => read_rows found []
    end
  else [].

(** [get_displayed_total]. *)
Definition get_displayed_total (pg : page) : Z :=
  match total_text pg with
  | None => 0
  | Some element_text =>
      let total_text := strip element_text in
      match re_search_digits (remove_char ","%char total_text) with
      | Some group1 =>
          match py_int group1 with
          | Ok total => total
          | Raise _ => 0
          end
      | None => 0
      end
  end.

(** [sum(...)]: from 0, left to right. *)
Definition py_sum (l : list Z) : Z := fold_left Z.add l 0.

(** [calculate_expected_total]: reads the cart again and sums its lines. *)
Definition calculate_expected_total (pg : page) : Z :=
  let items := get_cart_items pg in
  py_sum (map price items).

(** A text has a decimal digit. *)
Definition has_decimal_digit (s : text) : bool := existsb isdecimal s.

(** The price field of a row: the text of its second cell. *)
Definition price_field (cells : row) : text := nth 1 cells [].

(** The sum of the prices of the lines of a snapshot. *)
Fixpoint sum_of_prices (lines : list cart_item) : Z :=
  match lines with
  | [] => 0
  | line :: rest => price line + sum_of_prices rest
  end.

(** The page with its rows replaced. *)
Definition with_rows (pg : page) (new_rows : list row) : page :=
  {| table_present := table_present pg;
     rows := new_rows;
     total_text := total_text pg |}.

(** What the displayed total is for a total field: 0 when the field cannot
    be read, 0 when its text has no decimal digit, 0 when the first digit run
    of the text without its commas has more digits than [int] converts, and
    otherwise the number that run denotes. *)
Inductive displayed_total_spec : option text -> Z -> Prop :=
  | total_unreadable :
      displayed_total_spec None 0
  | total_without_digit (t : text) :
      no_decimal t ->
      displayed_total_spec (Some t) 0
  | total_run_too_long (t pre run post : text) :
      remove_char ","%char t = pre ++ run ++ post ->
      no_decimal pre -> run <> [] -> all_decimal run ->
      digit_free_start post ->
      (int_max_str_digits < List.length run)%nat ->
      displayed_total_spec (Some t) 0
  | total_first_run (t pre run post : text) :
      remove_char ","%char t = pre ++ run ++ post ->
      no_decimal pre -> run <> [] -> all_decimal run ->
      digit_free_start post ->
      (List.length run <= int_max_str_digits)%nat ->
      displayed_total_spec (Some t) (digits_value run).

(** The reading of the claim that, when the total text has a digit, the
    displayed total is the number its first digit run denotes once the
    commas are removed. *)
Definition spec_first_run_total (t : text) : option Z :=
  option_map digits_value (re_search_digits (remove_char ","%char t)).

End CartPage.

(** ** [PaymentPage]: submitting the Stripe form and waiting for the outcome *)

Module PaymentPage.
Import PyStr Py.

(** Where the driver's commands are addressed. *)
Inductive browsing_context : Type :=
  | TopLevel
  | StripeFrame.

(** The payment page as the driver meets it during one submission: whether
    the Stripe iframe becomes available within the wait, the two controls the
    frame may hold, whether a scripted click on a control goes through, and
    what each poll of the confirmation wait sees. *)
Record page : Type := {
  frame_available : bool;
  payer_button : option handle;
  submit_button : option handle;
  click_succeeds : handle -> bool;
  success_message_present : nat -> bool;
  alt_success_message_present : nat -> bool;
  (** polls the confirmation wait makes after its first one, before its
      deadline passes *)
  further_polls : nat
}.

(** The driver's state: the current browsing context and the controls
    clicked so far, oldest first. *)
Record driver : Type := {
  context : browsing_context;
  clicked : list handle
}.

Definition switch_to (c : browsing_context) : M driver unit :=
  modify (fun d => {| context := c; clicked := clicked d |}).

(** [self.driver.switch_to.default_content()]; on a live session the
    command itself does not fail. *)
Definition default_content : M driver unit := switch_to TopLevel.

(** [WebDriverWait(...).until(EC.frame_to_be_available_and_switch_to_it(...))]. *)
Definition wait_frame_and_switch (pg : page) : M driver unit :=
  if frame_available pg then switch_to StripeFrame
  else raise TimeoutException.

(** [self.driver.find_element(...)]. *)
Definition find_element (found : option handle) : M driver handle :=
  match found with
  | Some h => ret h
  | None => raise NoSuchElementException
  end.

(** [self.driver.execute_script("arguments[0].click();", button)]. *)
Definition script_click (pg : page) (button : handle) : M driver unit :=
  if click_succeeds pg button then
    modify (fun d => {| context := context d;
                        clicked := clicked d ++ [button] |})
  else raise (PyException (py "javascript error")).

Definition submit_payment_form (pg : page) : M driver unit :=
  try_except
    (wait_frame_and_switch pg ;;
     try_except
       (payer_button <- find_element (payer_button pg) ;;
        script_click pg payer_button)
       (fun _ =>
          submit_button <- find_element (submit_button pg) ;;
          script_click pg submit_button) ;;
     default_content)
    (fun e => default_content ;; raise e).

(** [WebDriverWait.until(method)]: call [method]; return when it is true;
    otherwise sleep and, unless the deadline has passed, call it again; past
    the deadline raise [TimeoutException].  [attempt] numbers the calls and
    [remaining] counts those still to come before the deadline. *)
Fixpoint until (method : nat -> bool) (attempt remaining : nat) : result bool :=
  if method attempt then Ok true
  else match remaining with
       | O => Raise TimeoutException
       | S remaining' => until method (S attempt) remaining'
       end.

(** The condition of the confirmation wait:
    [is_element_present(SUCCESS_MESSAGE, 2) or
     is_element_present(ALT_SUCCESS_MESSAGE, 2)]. *)
Definition success_indicator (pg : page) (attempt : nat) : bool :=
  success_message_present pg attempt || alt_success_message_present pg attempt.

Definition submit_payment (pg : page) : M driver bool :=
  try_except
    (submit_payment_form pg ;;
     _ <- lift (until (success_indicator pg) 0 (further_polls pg)) ;;
     ret true)
    (fun _ => ret false).

End PaymentPage.

(** ** [PaymentPage], continued: finding the Stripe frame and filling the form

    The methods below look elements up by locator and switch between
    frames, so the page is described in more detail than [PaymentPage.page]
    needs for the submission alone. *)

Module PaymentForm.
Import PyStr Py.

(** The class constants, and the selectors written out in the methods. *)
Inductive locator : Type :=
  | EMAIL_FIELD | CARD_NUMBER_FIELD | EXPIRY_FIELD | CVC_FIELD | ZIP_FIELD
  | ALT_EMAIL_FIELD | ALT_CARD_FIELD | ALT_EXPIRY_FIELD | ALT_CVC_FIELD
  | ALT_ZIP_FIELD
  | SUCCESS_MESSAGE | ALT_SUCCESS_MESSAGE
  (** the XPath fallbacks of the [fill_*_field] methods *)
  | XPATH_EMAIL | XPATH_CARD | XPATH_EXPIRY | XPATH_CVC | XPATH_ZIP
  (** the CSS selectors of [wait_for_payment_form] and [fill_payment_form] *)
  | CSS_EMAIL_INPUT | CSS_CARD_INPUT | CSS_EXPIRY_INPUT | CSS_CVC_INPUT
  | CSS_ZIP_INPUT.

(** An [iframe] element of the top-level document: its handle, whether the
    driver can switch into it, and what each locator finds in its document
    within the waits used here.  Frames hold no frames of their own. *)
Record iframe : Type := {
  frame_element : handle;
  switchable : bool;
  contents : locator -> option handle
}.

(** The page: what each locator finds in the top-level document, its
    [iframe] elements in document order, and the one the Stripe selector
    ([iframe[name^='stripe_checkout_app'], iframe[title*='Stripe']]) picks,
    if any becomes available. *)
Record page : Type := {
  top_level : locator -> option handle;
  iframes : list iframe;
  stripe_frame : option iframe
}.

Inductive frame_context : Type :=
  | Top
  | InFrame (f : iframe).

(** What the driver does to a field. *)
Inductive action : Type :=
  | Clear (field : handle)
  | SendKeys (field : handle) (keys : text)
  | SendTab (field : handle).

(** The driver's state: the current context and its actions so far, oldest
    first. *)
Record driver : Type := {
  context : frame_context;
  actions : list action
}.

Definition TEST_EMAIL : text := py "test@example.com".
Definition TEST_CARD_NUMBER : text := py "4242424242424242".
Definition TEST_EXPIRY : text := py "1225".
Definition TEST_CVC : text := py "123".
Definition TEST_ZIP : text := py "12345".

Definition switch_to (c : frame_context) : M driver unit :=
  modify (fun d => {| context := c; actions := actions d |}).

(** [self.driver.switch_to.default_content()]; on a live session the
    command itself does not fail. *)
Definition default_content : M driver unit := switch_to Top.

Definition act (a : action) : M driver unit :=
  modify (fun d => {| context := context d; actions := actions d ++ [a] |}).

(** What a locator finds from the current context. *)
Definition locate (pg : page) (l : locator) : M driver (option handle) :=
  fun d => (Ok (match context d with
                | Top => top_level pg l
                | InFrame f => contents f l
                end), d).

(** [BasePage.is_element_present]: the timeout of the wait is the answer
    [False]. *)
Definition is_element_present (pg : page) (l : locator) : M driver bool :=
  found <- locate pg l ;;
  ret (match found with Some _ => true | None => false end).

(** [self.driver.find_element(...)]. *)
Definition find_element (pg : page) (l : locator) : M driver handle :=
  found <- locate pg l ;;
  match found with
  | Some h => ret h
  | None => raise NoSuchElementException
  end.

(** [WebDriverWait(...).until(EC.presence_of_element_located(...))]. *)
Definition wait_presence (pg : page) (l : locator) : M driver handle :=
  found <- locate pg l ;;
  match found with
  | Some h => ret h
  | None => raise TimeoutException
  end.

(** [BasePage.send_keys_to_element]: wait for the element, clear it, type. *)
Definition send_keys_to_element (pg : page) (l : locator) (keys : text)
  : M driver handle :=
  try_except
    (element <- wait_presence pg l ;;
     act (Clear element) ;;
     act (SendKeys element keys) ;;
     ret element)
    (fun _ => raise (PyException (py "Element not found to send keys")))
.

(** [WebDriverWait(...).until(EC.frame_to_be_available_and_switch_to_it(...))]:
    the Stripe iframe is an element of the top-level document. *)
Definition wait_frame_and_switch (pg : page) : M driver unit :=
  fun d =>
    match context d, stripe_frame pg with
    | Top, Some f =>
        if switchable f then switch_to (InFrame f) d
        else raise TimeoutException d
    | _, _ => raise TimeoutException d
    end.

(** [wait_for_payment_form]. *)
Definition wait_for_payment_form (pg : page) : M driver bool :=
  try_except
    (wait_frame_and_switch pg ;;
     _ <- wait_presence pg CSS_EMAIL_INPUT ;;
     default_content ;;
     ret true)
    (fun _ => default_content ;; ret false).

(** The loop of [switch_to_stripe_iframe_if_needed] over the iframes
    found: a frame that cannot be switched into raises, and the handler goes
    back to the top and on to the next frame. *)
Fixpoint scan_iframes (pg : page) (found : list iframe) : M driver bool :=
  match found with
  | [] => ret false
  | f :: rest =>
      if switchable f then
        switch_to (InFrame f) ;;
        has_email <- is_element_present pg EMAIL_FIELD ;;
        has_field <-
          (if has_email then ret true
           else is_element_present pg CARD_NUMBER_FIELD) ;;
        if has_field then ret true
        else default_content ;; scan_iframes pg rest
      else default_content ;; scan_iframes pg rest
  end.

(** [switch_to_stripe_iframe_if_needed]: the iframes are those of the
    current document. *)
Definition switch_to_stripe_iframe_if_needed (pg : page) : M driver bool :=
  fun d =>
    scan_iframes pg (match context d with
                     | Top => iframes pg
                     | InFrame _ => []
                     end) d.

(** [value or default]: [None] and the empty string give the default. *)
Definition or_default (value : option text) (default : text) : text :=
  match value with
  | Some (c :: rest) => c :: rest
  | _ => default
  end.

(** The common body of [fill_email_field], [fill_card_number_field],
    [fill_expiry_field], [fill_cvc_field] and [fill_zip_field]: the primary
    locator, else the alternative one, else an XPath lookup whose element is
    cleared and sent [last_keys]. *)
Definition fill_with_fallbacks
  (pg : page) (primary alt xpath : locator) (keys last_keys : text)
  : M driver unit :=
  present <- is_element_present pg primary ;;
  if present then _ <- send_keys_to_element pg primary keys ;; ret tt
  else
    alt_present <- is_element_present pg alt ;;
    if alt_present then _ <- send_keys_to_element pg alt keys ;; ret tt
    else
      field <- find_element pg xpath ;;
      act (Clear field) ;;
      act (SendKeys field last_keys).

Definition fill_email_field (pg : page) (email : option text)
  : M driver unit :=
  let email := or_default email TEST_EMAIL in
  try_except
    (fill_with_fallbacks pg EMAIL_FIELD ALT_EMAIL_FIELD XPATH_EMAIL email email)
    (fun e => raise e).

Definition fill_card_number_field (pg : page) (card_number : option text)
  : M driver unit :=
  let card_number := or_default card_number TEST_CARD_NUMBER in
  try_except
    (fill_with_fallbacks pg CARD_NUMBER_FIELD ALT_CARD_FIELD XPATH_CARD
       card_number card_number)
    (fun e => raise e).

(** [expiry.replace("/", " / ")]. *)
Definition space_slashes (expiry : text) : text :=
  flat_map (fun c => if Ascii.eqb c "/" then py " / " else [c]) expiry.

Definition fill_expiry_field (pg : page) (expiry : option text)
  : M driver unit :=
  let expiry := or_default expiry TEST_EXPIRY in
  try_except
    (fill_with_fallbacks pg EXPIRY_FIELD ALT_EXPIRY_FIELD XPATH_EXPIRY
       expiry (space_slashes expiry))
    (fun e => raise e).

Definition fill_cvc_field (pg : page) (cvc : option text) : M driver unit :=
  let cvc := or_default cvc TEST_CVC in
  try_except
    (fill_with_fallbacks pg CVC_FIELD ALT_CVC_FIELD XPATH_CVC cvc cvc)
    (fun e => raise e).

(** [fill_zip_field]: an exception is printed and dropped. *)
Definition fill_zip_field (pg : page) (zip_code : option text)
  : M driver unit :=
  let zip_code := or_default zip_code TEST_ZIP in
  try_except
    (fill_with_fallbacks pg ZIP_FIELD ALT_ZIP_FIELD XPATH_ZIP zip_code zip_code)
    (fun _ => ret tt).

(** [range(0, stop, step)] for a positive [step]: [ceil(stop / step)]
    indices from 0, [step] apart. *)
Fixpoint range_from (count start step : nat) : list nat :=
  match count with
  | O => []
  | S count' => start :: range_from count' (start + step) step
  end.

Definition py_range (stop step : nat) : list nat :=
  range_from ((stop + step - 1) / step) 0 step.

(** [s[i:j]] for [0 <= i <= j]. *)
Definition slice (s : text) (i j : nat) : text := firstn (j - i) (skipn i s).

(** The chunks [fill_payment_form] types into the card field:
    [card_number[i:i+4] for i in range(0, len(card_number), 4)] with
    [card_number = card.replace(" ", "")]. *)
Definition card_chunks (card : text) : list text :=
  let card_number := remove_char " "%char card in
  map (fun i => slice card_number i (i + 4))
      (py_range (List.length card_number) 4).

(** [exp.replace("/", "").replace(" ", "")[:4]]. *)
Definition exp_digits (exp : text) : text :=
  slice (remove_char " "%char (remove_char "/"%char exp)) 0 4.

(** [for x in l: body(x)]. *)
Fixpoint for_each {S A} (l : list A) (body : A -> M S unit) : M S unit :=
  match l with
  | [] => ret tt
  | x :: rest => body x ;; for_each rest body
  end.

(** [fill_payment_form]. *)
Definition fill_payment_form
  (pg : page) (email card exp cvc zip_code : text) : M driver unit :=
  loaded <- wait_for_payment_form pg ;;
  if negb loaded then
    raise (PyException
             (py "Payment form did not load properly within expected time."))
  else
    wait_frame_and_switch pg ;;
    email_field <- find_element pg CSS_EMAIL_INPUT ;;
    act (Clear email_field) ;;
    act (SendKeys email_field email) ;;
    card_field <- find_element pg CSS_CARD_INPUT ;;
    act (Clear card_field) ;;
    for_each (card_chunks card) (fun chunk => act (SendKeys card_field chunk)) ;;
    exp_field <- find_element pg CSS_EXPIRY_INPUT ;;
    act (Clear exp_field) ;;
    act (SendKeys exp_field (slice (exp_digits exp) 0 2)) ;;
    act (SendKeys exp_field (skipn 2 (exp_digits exp))) ;;
    act (SendTab exp_field) ;;
    cvc_field <- find_element pg CSS_CVC_INPUT ;;
    act (Clear cvc_field) ;;
    act (SendKeys cvc_field cvc) ;;
    act (SendTab cvc_field) ;;
    try_except
      (zip_field <- find_element pg CSS_ZIP_INPUT ;;
       act (Clear zip_field) ;;
       act (SendKeys zip_field zip_code))
      (fun _ => ret tt) ;;
    default_content.

(** [is_payment_successful]. *)
Definition is_payment_successful (pg : page) : M driver bool :=
  try_except
    (found <- is_element_present pg SUCCESS_MESSAGE ;;
     if found then ret true else is_element_present pg ALT_SUCCESS_MESSAGE)
    (fun _ => ret false).

(** An iframe the scan of [switch_to_stripe_iframe_if_needed] stops at: the
    driver can switch into it and it shows the email or the card number
    field. *)
Definition holds_payment_field (f : iframe) : bool :=
  switchable f
  && (match contents f EMAIL_FIELD with Some _ => true | None => false end
      || match contents f CARD_NUMBER_FIELD with
         | Some _ => true
         | None => false
         end).

(** What locator [l] finds from where the driver [d] is. *)
Definition visible (pg : page) (d : driver) (l : locator) : option handle :=
  match context d with
  | Top => top_level pg l
  | InFrame f => contents f l
  end.

(** The element of the first locator of [ls] that finds one. *)
Fixpoint first_found (pg : page) (d : driver) (ls : list locator)
  : option handle :=
  match ls with
  | [] => None
  | l :: rest =>
      match visible pg d l with
      | Some h => Some h
      | None => first_found pg d rest
      end
  end.

(** The actions of [fill_payment_form] on the card field [c], then on the
    expiry field [x], then on the CVC field [v]. *)
Definition card_actions (c : handle) (card : text) : list action :=
  Clear c :: map (SendKeys c) (card_chunks card).

Definition expiry_actions (x : handle) (exp : text) : list action :=
  [Clear x; SendKeys x (slice (exp_digits exp) 0 2);
   SendKeys x (skipn 2 (exp_digits exp)); SendTab x].

Definition cvc_actions (v : handle) (cvc : text) : list action :=
  [Clear v; SendKeys v cvc; SendTab v].

(** The driver after [more] further actions in context [c]. *)
Definition after (d : driver) (c : frame_context) (more : list action)
  : driver :=
  {| context := c; actions := actions d ++ more |}.

(** The keys sent to [field], in order. *)
Definition keys_sent (field : handle) (done : list action) : list text :=
  kept (fun a => match a with
                 | SendKeys h keys => if Nat.eqb h field then Some keys else None
                 | _ => None
                 end) done.

End PaymentForm.

(** ** The cart check of [tests/test_happy_path.py] (step 4)

    The test reads the cart page several times while the page may still be
    filling; [reads k] is the page as the [k]-th read finds it. *)

Module TestHappyPath.
Import PyStr Py CartPage.

(** How the cart check ends: both assertions hold and the test goes on to
    pay; [pytest.fail] after the wait; the assertion on the item count
    fails; the assertion on the totals fails. *)
Inductive verdict : Type :=
  | ProceedToPayment (expected_total : Z)
  | FailedAfterWaiting (found : nat)
  | FailedItemCount (found : nat)
  | FailedTotal (expected_total displayed_total : Z).

(** [for attempt in range(15): ... if len(current_items) >= 2: break] with
    its [else]: whether the loop was left by [break], the index of the next
    read, and [current_items]. *)
Fixpoint wait_for_items
  (reads : nat -> page) (next attempts : nat) (current_items : list cart_item)
  : bool * nat * list cart_item :=
  match attempts with
  | O => (false, next, current_items)
  | S attempts' =>
      let current_items := get_cart_items (reads next) in
      if (2 <=? List.length current_items)%nat then (true, S next, current_items)
      else wait_for_items reads (S next) attempts' current_items
  end.

(** The number of lines the [k]-th read finds. *)
Definition items_at (reads : nat -> page) (k : nat) : nat :=
  List.length (get_cart_items (reads k)).

Definition validate_cart (reads : nat -> page) : verdict :=
  let initial_items := get_cart_items (reads 0%nat) in
  let '(arrived, next, current_items) :=
    if (List.length initial_items <? 2)%nat
    then wait_for_items reads 1 15 []
    else (true, 1%nat, initial_items) in
  if negb arrived then FailedAfterWaiting (List.length current_items)
  else
    let cart_items := get_cart_items (reads next) in
    if negb (List.length cart_items =? 2)%nat
    then FailedItemCount (List.length cart_items)
    else
      let expected_total := calculate_expected_total (reads (S next)) in
      let displayed_total := get_displayed_total (reads (S (S next))) in
      if expected_total =? displayed_total
      then ProceedToPayment expected_total
      else FailedTotal expected_total displayed_total.

End TestHappyPath.

(* ===================================================================== *)
(** * Part II: lemmas and theorems                                       *)
(* ===================================================================== *)

(** ** Facts about text *)

Section TextFacts.
Import PyStr Py.

Lemma startswith_iff (s prefix : text) :
  startswith s prefix = true <-> exists post, s = prefix ++ post.
Proof.
  revert s; induction prefix as [|p ps IH]; intros s; simpl.
  - split; [intros _; now exists s | now destruct s].
  - destruct s as [|c cs].
    + split; [discriminate | intros [post H]; discriminate].
    + simpl. rewrite andb_true_iff, Ascii.eqb_eq, IH. split.
      * intros [-> [post ->]]. now exists post.
      * intros [post H]. injection H as -> ->. split; [reflexivity | now exists post].
Qed.

Lemma str_in_iff (sub s : text) :
  str_in sub s = true <-> Substring sub s.
Proof.
  unfold Substring. induction s as [|c cs IH].
  - cbn [str_in]. rewrite orb_false_r, startswith_iff. split.
    + intros [post H]. exists [], post. exact H.
    + intros [pre [post H]]. destruct pre; [now exists post | discriminate].
  - cbn [str_in]. rewrite orb_true_iff, startswith_iff, IH. split.
    + intros [[post H] | [pre [post H]]].
      * exists [], post. exact H.
      * exists (c :: pre), post. simpl. now rewrite H.
    + intros [pre [post H]]. destruct pre as [|c' pre].
      * left. now exists post.
      * right. injection H as _ H. now exists pre, post.
Qed.

Lemma takewhile_dropwhile (f : ascii -> bool) (s : text) :
  s = takewhile f s ++ dropwhile f s.
Proof.
  induction s as [|c cs IH]; simpl; [reflexivity|].
  destruct (f c); simpl; [now rewrite <- IH | reflexivity].
Qed.

Lemma takewhile_all (f : ascii -> bool) (s : text) :
  Forall (fun c => f c = true) (takewhile f s).
Proof.
  induction s as [|c cs IH]; simpl; [constructor|].
  destruct (f c) eqn:E; constructor; assumption.
Qed.

Lemma dropwhile_all (f : ascii -> bool) (a s : text) :
  Forall (fun c => f c = true) a -> dropwhile f (a ++ s) = dropwhile f s.
Proof.
  induction 1 as [|c a Hc _ IH]; simpl; [reflexivity|]. now rewrite Hc.
Qed.

(** [strip] removes a run of white space at each end and nothing else. *)
Lemma strip_decompose (s : text) :
  exists a b,
    s = a ++ strip s ++ b
    /\ Forall (fun c => isspace c = true) a
    /\ Forall (fun c => isspace c = true) b.
Proof.
  unfold strip, rstrip, lstrip.
  exists (takewhile isspace s), (rev (takewhile isspace (rev (dropwhile isspace s)))).
  split; [|split].
  - rewrite <- rev_app_distr, <- takewhile_dropwhile, rev_involutive.
    apply takewhile_dropwhile.
  - apply takewhile_all.
  - apply Forall_rev, takewhile_all.
Qed.

Lemma isspace_not_decimal (c : ascii) : isspace c = true -> isdecimal c = false.
Proof.
  unfold isspace, isdecimal, between. generalize (code c) as n. intros n H.
  repeat rewrite orb_true_iff in H. repeat rewrite andb_true_iff in H.
  repeat rewrite N.leb_le in H. repeat rewrite N.eqb_eq in H.
  apply andb_false_iff. rewrite !N.leb_gt. lia.
Qed.

Lemma isdecimal_isdigit (c : ascii) : isdecimal c = true -> isdigit c = true.
Proof. unfold isdigit. now intros ->. Qed.

Lemma spaces_no_decimal (a : text) :
  Forall (fun c => isspace c = true) a -> no_decimal a.
Proof.
  unfold no_decimal. intros H. eapply Forall_impl; [|exact H].
  intros c. apply isspace_not_decimal.
Qed.

Lemma no_decimal_app (a b : text) :
  no_decimal (a ++ b) <-> no_decimal a /\ no_decimal b.
Proof. unfold no_decimal. apply Forall_app. Qed.

Lemma no_decimal_strip (s : text) : no_decimal s -> no_decimal (strip s).
Proof.
  destruct (strip_decompose s) as [a [b [E _]]]. intros H. rewrite E in H.
  apply no_decimal_app in H as [_ H]. now apply no_decimal_app in H as [H _].
Qed.

Lemma no_decimal_remove_char (x : ascii) (s : text) :
  no_decimal s -> no_decimal (remove_char x s).
Proof.
  unfold no_decimal, remove_char. intros H.
  apply Forall_forall. intros c Hc. apply filter_In in Hc as [Hc _].
  revert c Hc. now apply Forall_forall.
Qed.

Lemma remove_char_app (x : ascii) (a b : text) :
  remove_char x (a ++ b) = remove_char x a ++ remove_char x b.
Proof. unfold remove_char. apply filter_app. Qed.

Lemma has_no_decimal_iff (s : text) :
  existsb isdecimal s = false <-> no_decimal s.
Proof.
  unfold no_decimal. induction s as [|c cs IH]; simpl.
  - split; [constructor | reflexivity].
  - rewrite orb_false_iff, IH. split.
    + intros [H1 H2]. now constructor.
    + intros H. inversion H; subst. now split.
Qed.

Lemma takewhile_stop (f : ascii -> bool) (run post : text) :
  Forall (fun c => f c = true) run ->
  match post with [] => True | c :: _ => f c = false end ->
  takewhile f (run ++ post) = run.
Proof.
  intros Hrun Hpost. induction Hrun as [|c run Hc _ IH]; simpl.
  - destruct post as [|c post]; [reflexivity | simpl; now rewrite Hpost].
  - now rewrite Hc, IH.
Qed.

Lemma takewhile_decimal_suffix (x b : text) :
  no_decimal b -> takewhile isdecimal (x ++ b) = takewhile isdecimal x.
Proof.
  intros Hb. induction x as [|c x IH]; simpl.
  - destruct Hb as [|c b Hc _]; [reflexivity | simpl; now rewrite Hc].
  - destruct (isdecimal c); [now rewrite IH | reflexivity].
Qed.

Lemma no_decimal_negb (a : text) :
  no_decimal a -> Forall (fun c => negb (isdecimal c) = true) a.
Proof.
  unfold no_decimal. intros H. eapply Forall_impl; [|exact H].
  simpl. now intros c ->.
Qed.

Lemma re_search_digits_none (s : text) :
  no_decimal s -> re_search_digits s = None.
Proof.
  intros H. unfold re_search_digits.
  rewrite <- (app_nil_r s), dropwhile_all by now apply no_decimal_negb.
  reflexivity.
Qed.

Lemma re_search_digits_prefix (a x : text) :
  no_decimal a -> re_search_digits (a ++ x) = re_search_digits x.
Proof.
  intros H. unfold re_search_digits.
  now rewrite dropwhile_all by now apply no_decimal_negb.
Qed.

Lemma re_search_digits_suffix (x b : text) :
  no_decimal b -> re_search_digits (x ++ b) = re_search_digits x.
Proof.
  intros Hb. induction x as [|c x IH].
  - simpl. rewrite re_search_digits_none by assumption. reflexivity.
  - unfold re_search_digits in *. simpl.
    destruct (isdecimal c) eqn:Hc; simpl.
    + rewrite Hc. now rewrite takewhile_decimal_suffix.
    + exact IH.
Qed.

(** [re.search(r'(\d+)', s)] returns the first digit run of [s]: the run
    that only characters other than decimal digits precede and that no
    decimal digit follows. *)
Lemma re_search_digits_found (s pre run post : text) :
  s = pre ++ run ++ post ->
  no_decimal pre -> run <> [] -> all_decimal run -> digit_free_start post ->
  re_search_digits s = Some run.
Proof.
  intros -> Hpre Hne Hrun Hpost.
  rewrite re_search_digits_prefix by assumption.
  unfold re_search_digits.
  destruct run as [|c run]; [congruence|].
  inversion Hrun as [|? ? Hc Hrun']; subst.
  simpl. rewrite Hc. simpl. rewrite Hc.
  rewrite takewhile_stop; [reflexivity | assumption |].
  destruct post; [exact I | exact Hpost].
Qed.

Lemma re_search_digits_run (s run : text) :
  re_search_digits s = Some run -> run <> [] /\ all_decimal run.
Proof.
  unfold re_search_digits.
  pose proof (takewhile_all isdecimal
                (dropwhile (fun c => negb (isdecimal c)) s)) as H.
  destruct (takewhile _ _) as [|c r]; [discriminate|].
  intros E. injection E as <-. split; [discriminate | exact H].
Qed.

Lemma py_int_ok (s : text) (v : Z) :
  py_int s = Ok v
  <-> s <> [] /\ all_decimal s
      /\ (List.length s <= int_max_str_digits)%nat
      /\ v = digits_value s.
Proof.
  unfold py_int, all_decimal. destruct s as [|c r].
  - split; [discriminate | intros [H _]; congruence].
  - destruct (forallb isdecimal (c :: r)) eqn:F.
    + destruct (Nat.leb_spec (List.length (c :: r)) int_max_str_digits)
        as [Hlen | Hlen].
      * split.
        -- intros H. injection H as <-.
           repeat split; [discriminate | | exact Hlen].
           apply Forall_forall. now apply forallb_forall.
        -- now intros [_ [_ [_ ->]]].
      * split; [discriminate|]. intros [_ [_ [H _]]]. lia.
    + split; [discriminate|]. intros [_ [H _]].
      assert (forallb isdecimal (c :: r) = true)
        by (apply forallb_forall; now apply Forall_forall).
      congruence.
Qed.

Lemma py_int_decimal (run : text) :
  run <> [] -> all_decimal run ->
  (List.length run <= int_max_str_digits)%nat ->
  py_int run = Ok (digits_value run).
Proof. intros Hne Hrun Hlen. now apply py_int_ok. Qed.

Lemma py_int_too_long (run : text) :
  (int_max_str_digits < List.length run)%nat ->
  exists e, py_int run = Raise e.
Proof.
  intros Hlen. destruct (py_int run) as [v|e] eqn:E; [|now exists e].
  apply py_int_ok in E as [_ [_ [H _]]]. lia.
Qed.

Lemma py_int_empty : exists e, py_int [] = Raise e.
Proof. now eexists. Qed.

Lemma split_on_no_sep (sep : ascii) (s : text) :
  ~ In sep s -> split_on sep s = [s].
Proof.
  induction s as [|c cs IH]; intros H; simpl; [reflexivity|].
  destruct (Ascii.eqb c sep) eqn:E.
  - apply Ascii.eqb_eq in E. subst. exfalso. apply H. now left.
  - rewrite IH; [reflexivity|]. intros Hin. apply H. now right.
Qed.

Lemma dropwhile_head (f : ascii -> bool) (s : text) :
  match dropwhile f s with
  | [] => True
  | c :: _ => f c = false
  end.
Proof.
  induction s as [|c s IH]; simpl; [exact I|].
  destruct (f c) eqn:E; [exact IH | exact E].
Qed.

(** A successful digit search splits the text around the run it returns. *)
Lemma re_search_digits_decompose (s run : text) :
  re_search_digits s = Some run ->
  exists pre post,
    s = pre ++ run ++ post
    /\ no_decimal pre /\ run <> [] /\ all_decimal run
    /\ digit_free_start post.
Proof.
  intros H. destruct (re_search_digits_run s run H) as [Hne Hdec].
  unfold re_search_digits in H.
  set (nd := fun c => negb (isdecimal c)) in *.
  exists (takewhile nd s), (dropwhile isdecimal (dropwhile nd s)).
  assert (run = takewhile isdecimal (dropwhile nd s)) as ->.
  { destruct (takewhile isdecimal (dropwhile nd s)); congruence. }
  repeat split; try assumption.
  - rewrite <- takewhile_dropwhile. apply takewhile_dropwhile.
  - unfold no_decimal. eapply Forall_impl; [|apply (takewhile_all nd)].
    unfold nd. intros c Hc. now apply negb_true_iff in Hc.
  - unfold digit_free_start.
    pose proof (dropwhile_head isdecimal (dropwhile nd s)) as Hh.
    destruct (dropwhile isdecimal (dropwhile nd s)); [exact I | exact Hh].
Qed.

Lemma re_search_digits_none_inv (s : text) :
  re_search_digits s = None -> no_decimal s.
Proof.
  unfold re_search_digits. intros H.
  set (nd := fun c => negb (isdecimal c)) in *.
  pose proof (dropwhile_head nd s) as Hh.
  destruct (dropwhile nd s) as [|c r] eqn:E.
  - rewrite (takewhile_dropwhile nd s), E, app_nil_r.
    unfold no_decimal. eapply Forall_impl; [|apply (takewhile_all nd)].
    unfold nd. intros c Hc. now apply negb_true_iff in Hc.
  - unfold nd in Hh. apply negb_false_iff in Hh.
    simpl in H. rewrite Hh in H. discriminate.
Qed.

Lemma no_decimal_remove_char_inv (x : ascii) (s : text) :
  isdecimal x = false -> no_decimal (remove_char x s) -> no_decimal s.
Proof.
  unfold no_decimal, remove_char. intros Hx.
  induction s as [|c s IH]; simpl; [constructor|].
  destruct (Ascii.eqb c x) eqn:E; simpl.
  - apply Ascii.eqb_eq in E. subst. intros H. constructor; auto.
  - intros H. inversion H; subst. constructor; auto.
Qed.

End TextFacts.

(** ** [HomePage] *)

Section HomePageFacts.
Import PyStr Py HomePage.

Lemma should_buy_moisturizers_iff (t : Z) :
  should_buy_moisturizers t = true <-> t < 19.
Proof. unfold should_buy_moisturizers. apply Z.ltb_lt. Qed.

Lemma should_buy_sunscreens_iff (t : Z) :
  should_buy_sunscreens t = true <-> t > 34.
Proof. unfold should_buy_sunscreens. rewrite Z.gtb_ltb, Z.ltb_lt. lia. Qed.

Lemma is_moderate_temperature_iff (t : Z) :
  is_moderate_temperature t = true <-> 19 <= t <= 34.
Proof.
  unfold is_moderate_temperature. now rewrite andb_true_iff, !Z.leb_le.
Qed.

Lemma category_names_distinct :
  py "moisturizers" <> py "sunscreens"
  /\ py "moisturizers" <> py "none"
  /\ py "sunscreens" <> py "none".
Proof. repeat split; intros H; vm_compute in H; discriminate. Qed.

(** C3.  For every integer temperature [t], on a page whose two category
    buttons can be clicked, [navigate_to_appropriate_category] returns a
    category, and that category is ["moisturizers"] exactly when [t < 19],
    ["sunscreens"] exactly when [t > 34], and ["none"] exactly when
    [19 <= t <= 34]; the three predicates [should_buy_moisturizers],
    [should_buy_sunscreens] and [is_moderate_temperature] draw the same
    lines, so 19 and 34 belong to the ["none"] band, 18 to moisturizers and
    35 to sunscreens. *)
Theorem category_follows_temperature (t : Z) (p : page) (done : clicks) :
  clickable p MOISTURIZERS_BUTTON = true ->
  clickable p SUNSCREENS_BUTTON = true ->
  exists category,
    fst (navigate_to_appropriate_category p t done) = Ok category
    /\ (category = py "moisturizers" <-> t < 19)
    /\ (category = py "sunscreens" <-> t > 34)
    /\ (category = py "none" <-> 19 <= t <= 34)
    /\ (should_buy_moisturizers t = true <-> t < 19)
    /\ (should_buy_sunscreens t = true <-> t > 34)
    /\ (is_moderate_temperature t = true <-> 19 <= t <= 34).
Proof.
  intros Hm Hs.
  destruct category_names_distinct as [Dms [Dmn Dsn]].
  pose proof (should_buy_moisturizers_iff t) as Im.
  pose proof (should_buy_sunscreens_iff t) as Is.
  pose proof (is_moderate_temperature_iff t) as In.
  unfold navigate_to_appropriate_category, click_moisturizers_button,
    click_sunscreens_button, click_element.
  rewrite Hm, Hs.
  destruct (should_buy_moisturizers t) eqn:Em;
    [|destruct (should_buy_sunscreens t) eqn:Es].
  - exists (py "moisturizers"). split; [reflexivity|].
    assert (t < 19) by now apply Im.
    repeat split; try tauto; try lia; intros; try congruence; try lia.
  - exists (py "sunscreens"). split; [reflexivity|].
    assert (t > 34) by now apply Is.
    repeat split; try tauto; try lia; intros; try congruence; try lia.
  - exists (py "none"). split; [reflexivity|].
    assert (~ t < 19) by (intros X; apply Im in X; discriminate).
    assert (~ t > 34) by (intros X; apply Is in X; discriminate).
    repeat split; try tauto; try lia; intros; try congruence; try lia.
Qed.

Lemma category_follows_temperature_witness :
  let p := {| temperature_text := Some (py "18");
              clickable := fun _ => true |} in
  clickable p MOISTURIZERS_BUTTON = true
  /\ clickable p SUNSCREENS_BUTTON = true
  /\ exists category,
       fst (navigate_to_appropriate_category p 18 []) = Ok category
       /\ (category = py "moisturizers" <-> 18 < 19)
       /\ (category = py "sunscreens" <-> 18 > 34)
       /\ (category = py "none" <-> 19 <= 18 <= 34)
       /\ (should_buy_moisturizers 18 = true <-> 18 < 19)
       /\ (should_buy_sunscreens 18 = true <-> 18 > 34)
       /\ (is_moderate_temperature 18 = true <-> 19 <= 18 <= 34).
Proof.
  intros p. split; [reflexivity|]. split; [reflexivity|].
  apply (category_follows_temperature 18 p []); reflexivity.
Defined.

(** The four boundary readings, run on a page whose buttons can be
    clicked. *)
Lemma category_at_boundaries :
  let p := {| temperature_text := None; clickable := fun _ => true |} in
  navigate_to_appropriate_category p 18 [] = (Ok (py "moisturizers"), [MOISTURIZERS_BUTTON])
  /\ navigate_to_appropriate_category p 19 [] = (Ok (py "none"), [])
  /\ navigate_to_appropriate_category p 34 [] = (Ok (py "none"), [])
  /\ navigate_to_appropriate_category p 35 [] = (Ok (py "sunscreens"), [SUNSCREENS_BUTTON]).
Proof. repeat split. Qed.

(** In the moderate band no button is clicked, whatever the page. *)
Lemma moderate_temperature_no_click (t : Z) (p : page) (done : clicks) :
  19 <= t <= 34 ->
  navigate_to_appropriate_category p t done = (Ok (py "none"), done).
Proof.
  intros H. unfold navigate_to_appropriate_category.
  destruct (should_buy_moisturizers t) eqn:Em.
  - apply should_buy_moisturizers_iff in Em. lia.
  - destruct (should_buy_sunscreens t) eqn:Es; [|reflexivity].
    apply should_buy_sunscreens_iff in Es. lia.
Qed.

(** On a page, the method branches on the reading it takes first; a text
    without a digit stops it before any click. *)
Lemma navigate_branches_on_reading (p : page) (t : Z) (done : clicks) :
  get_current_temperature p = Ok t ->
  navigate p done = navigate_to_appropriate_category p t done.
Proof. intros H. unfold navigate, bind, lift. now rewrite H. Qed.

Lemma temperature_readings :
  let page_with shown := {| temperature_text := Some shown;
                            clickable := fun _ => true |} in
  get_current_temperature (page_with (py "18 C")) = Ok 18
  /\ navigate (page_with (py "35 C")) []
     = (Ok (py "sunscreens"), [SUNSCREENS_BUTTON])
  /\ (exists e, navigate (page_with (py "n/a")) [] = (Raise e, [])).
Proof. repeat split. now eexists. Qed.

End HomePageFacts.

(** ** [ProductPage] *)

Section ProductPageFacts.
Import PyStr Py ProductPage.

(** *** The loops *)

Lemma read_cards_kept (elems : list card) (acc : list product) :
  read_cards elems acc = acc ++ kept read_card elems.
Proof.
  revert acc. induction elems as [|e elems IH]; intros acc; simpl.
  - now rewrite app_nil_r.
  - destruct (read_card e); rewrite IH; [|reflexivity].
    now rewrite <- app_assoc.
Qed.

Lemma kept_In {A B} (f : A -> option B) (l : list A) (y : B) :
  In y (kept f l) <-> exists x, In x l /\ f x = Some y.
Proof.
  induction l as [|a l IH]; simpl.
  - split; [tauto | intros [x [[] _]]].
  - destruct (f a) eqn:E; simpl; rewrite IH; split.
    + intros [<- | [x [Hx Hf]]]; [exists a | exists x]; tauto.
    + intros [x [[<- | Hx] Hf]]; [left; congruence | right; now exists x].
    + intros [x [Hx Hf]]. exists x. tauto.
    + intros [x [[<- | Hx] Hf]]; [congruence | now exists x].
Qed.

Lemma kept_app {A B} (f : A -> option B) (l1 l2 : list A) :
  kept f (l1 ++ l2) = kept f l1 ++ kept f l2.
Proof.
  induction l1 as [|a l1 IH]; simpl; [reflexivity|].
  destruct (f a); simpl; now rewrite IH.
Qed.

Lemma collect_filter (test : product -> bool) (products acc : list product) :
  collect test products acc = acc ++ filter test products.
Proof.
  revert acc. induction products as [|p products IH]; intros acc; simpl.
  - now rewrite app_nil_r.
  - destruct (test p); rewrite IH; [|reflexivity].
    now rewrite <- app_assoc.
Qed.

(** *** The cheapest product *)

Lemma min_by_price_first_minimum (rest pre seen : list product) (current : product) :
  (forall q, In q pre -> price current < price q) ->
  (forall q, In q seen -> price current <= price q) ->
  exists before p after,
    pre ++ current :: seen ++ rest = before ++ p :: after
    /\ min_by_price current rest = p
    /\ (forall q, In q before -> price p < price q)
    /\ (forall q, In q after -> price p <= price q).
Proof.
  revert pre seen current.
  induction rest as [|x rest IH]; intros pre seen current Hpre Hseen.
  - exists pre, current, seen. rewrite app_nil_r. auto.
  - simpl. destruct (price x <? price current) eqn:E.
    + apply Z.ltb_lt in E.
      destruct (IH (pre ++ current :: seen) [] x) as (b & p & a & Heq & H);
        [| intros q [] |].
      * intros q Hq. apply in_app_or in Hq as [Hq | [<- | Hq]].
        -- specialize (Hpre q Hq). lia.
        -- exact E.
        -- specialize (Hseen q Hq). lia.
      * exists b, p, a. split; [|exact H].
        rewrite <- Heq. simpl. now rewrite <- app_assoc.
    + apply Z.ltb_ge in E.
      destruct (IH pre (seen ++ [x]) current) as (b & p & a & Heq & H);
        [exact Hpre | |].
      * intros q Hq. apply in_app_or in Hq as [Hq | [<- | []]]; auto.
      * exists b, p, a. split; [|exact H].
        rewrite <- Heq. now rewrite <- app_assoc.
Qed.

(** C4.  [find_cheapest_product] returns [None] on the empty list; on a
    non-empty list it returns the first product of minimum price: every
    product before it in the list is strictly dearer and none after it is
    cheaper.  On prices 500, 300, 300 it returns the first of the two
    products priced 300. *)
Theorem find_cheapest_product_first_minimum :
  find_cheapest_product [] = None
  /\ (forall first rest,
        exists before p after,
          first :: rest = before ++ p :: after
          /\ find_cheapest_product (first :: rest) = Some p
          /\ (forall q, In q before -> price p < price q)
          /\ (forall q, In q after -> price p <= price q))
  /\ (let a := {| name := py "A"; price := 500; element := 1%nat;
                  add_to_cart_button := 11%nat |} in
      let b := {| name := py "B"; price := 300; element := 2%nat;
                  add_to_cart_button := 12%nat |} in
      let c := {| name := py "C"; price := 300; element := 3%nat;
                  add_to_cart_button := 13%nat |} in
      find_cheapest_product [a; b; c] = Some b).
Proof.
  split; [reflexivity|]. split; [|reflexivity].
  intros first rest.
  destruct (min_by_price_first_minimum rest [] [] first)
    as (b & p & a & Heq & Hmin & Hb & Ha); [intros q [] | intros q [] |].
  exists b, p, a. simpl in Heq. repeat split; auto.
  simpl. now rewrite Hmin.
Qed.

(** *** Filtering by an SPF tag *)

Lemma filter_spf_tag (products : list product) (n : text) :
  ~ In "-"%char n ->
  filter_products_by_ingredient products (py "SPF-" ++ n)
  = Ok (filter (fun p => str_in (py "SPF-" ++ n) (name p)
                         || str_in (py "SPF " ++ n) (name p)) products).
Proof.
  intros Hn. unfold filter_products_by_ingredient.
  replace (str_in (py "SPF") (py "SPF-" ++ n)) with true by reflexivity.
  replace (split_on "-" (py "SPF-" ++ n)) with [py "SPF"; n].
  - cbn [nth_error]. now rewrite collect_filter.
  - change (py "SPF-" ++ n) with ("S" :: "P" :: "F" :: "-" :: n)%char.
    cbn [split_on Ascii.eqb Bool.eqb andb]. now rewrite split_on_no_sep.
Qed.

(** C10.  A tag that contains ["SPF"] and no hyphen makes
    [filter_products_by_ingredient] raise [IndexError], whatever the product
    list: the tag splits on ["-"] into a single piece and the second piece
    is asked for. *)
Theorem filter_spf_tag_without_hyphen_raises
  (products : list product) (ingredient : text) :
  Substring (py "SPF") ingredient ->
  ~ In "-"%char ingredient ->
  filter_products_by_ingredient products ingredient = Raise IndexError.
Proof.
  intros Hspf Hhyphen. unfold filter_products_by_ingredient.
  apply str_in_iff in Hspf. rewrite Hspf.
  now rewrite split_on_no_sep.
Qed.

Lemma filter_spf_tag_without_hyphen_raises_witness :
  let p := {| name := py "Sun SPF 30"; price := 100; element := 1%nat;
              add_to_cart_button := 2%nat |} in
  Substring (py "SPF") (py "SPF 30")
  /\ ~ In "-"%char (py "SPF 30")
  /\ filter_products_by_ingredient [p] (py "SPF 30") = Raise IndexError.
Proof.
  intros p.
  assert (H1 : Substring (py "SPF") (py "SPF 30"))
    by (apply str_in_iff; reflexivity).
  assert (H2 : ~ In "-"%char (py "SPF 30"))
    by (simpl; intros H; repeat destruct H as [H | H]; try discriminate H; exact H).
  split; [exact H1|]. split; [exact H2|].
  exact (filter_spf_tag_without_hyphen_raises [p] (py "SPF 30") H1 H2).
Defined.

Lemma spf300_has_spf30 (s : text) :
  Substring (py "SPF-300") s -> Substring (py "SPF-30") s.
Proof.
  intros [pre [post ->]]. exists pre, ("0"%char :: post). reflexivity.
Qed.

(** C1, as the code has it.  Filtering with the tag ["SPF-30"] returns, in
    catalog order, exactly the products whose name has ["SPF-30"] or
    ["SPF 30"] as a substring; the match is plain containment, so a product
    whose name contains ["SPF-300"] is returned as well. *)
Theorem filter_spf30_substring_match (products : list product) :
  exists filtered,
    filter_products_by_ingredient products (py "SPF-30") = Ok filtered
    /\ filtered
       = filter (fun p => str_in (py "SPF-30") (name p)
                          || str_in (py "SPF 30") (name p)) products
    /\ (forall p, In p filtered <->
                  In p products
                  /\ (Substring (py "SPF-30") (name p)
                      \/ Substring (py "SPF 30") (name p)))
    /\ (forall p, In p products ->
                  Substring (py "SPF-300") (name p) -> In p filtered).
Proof.
  eexists. split; [|split; [reflexivity|]].
  - apply (filter_spf_tag products (py "30")).
    simpl. intros H. repeat destruct H as [H | H]; try discriminate H; exact H.
  - assert (Hin : forall p,
               In p (filter (fun p => str_in (py "SPF-30") (name p)
                                      || str_in (py "SPF 30") (name p)) products)
               <-> In p products
                   /\ (Substring (py "SPF-30") (name p)
                       \/ Substring (py "SPF 30") (name p))).
    { intros p. rewrite filter_In, orb_true_iff, !str_in_iff. reflexivity. }
    split; [exact Hin|].
    intros p Hp H300. apply Hin. split; [exact Hp|].
    left. now apply spf300_has_spf30.
Qed.

(** C1, as stated, fails: a product named ["Ultra Sun SPF-300"], whose only
    SPF marking is 300, is returned for the tag ["SPF-30"]. *)
Lemma filter_spf30_returns_spf300 :
  let p := {| name := py "Ultra Sun SPF-300"; price := 100; element := 1%nat;
              add_to_cart_button := 2%nat |} in
  filter_products_by_ingredient [p] (py "SPF-30") = Ok [p]
  /\ str_in (py "SPF-300") (name p) = true
  /\ spec_exact_spf_match (py "30") (name p) = false.
Proof. repeat split. Qed.

(** *** Catalog extraction *)

Lemma get_all_products_kept (cards : list card) :
  cards <> [] -> get_all_products cards = Ok (kept read_card cards).
Proof.
  intros H. unfold get_all_products. destruct cards; [congruence|].
  now rewrite read_cards_kept.
Qed.

Lemma any_isdigit_filter (s : text) :
  any_isdigit s = false <-> filter isdigit s = [].
Proof.
  unfold any_isdigit. induction s as [|c s IH]; simpl; [tauto|].
  destruct (isdigit c); simpl; [split; discriminate | exact IH].
Qed.

(** What [read_card] does once the price label is known. *)
Lemma read_card_price (elem : card) (label : text) :
  price_label (card_paragraphs elem) = Some label ->
  (forall product,
      read_card elem = Some product ->
      any_isdigit label = true
      /\ py_int (filter isdigit label) = Ok (price product))
  /\ (forall e, py_int (filter isdigit label) = Raise e -> read_card elem = None)
  /\ (forall v button,
        py_int (filter isdigit label) = Ok v ->
        card_button elem = Some button ->
        exists product, read_card elem = Some product /\ price product = v).
Proof.
  intros Hlabel. unfold read_card. rewrite Hlabel.
  destruct (card_paragraphs elem) as [|first others]; [discriminate|].
  destruct label as [|c label].
  - split; [discriminate|]. split; [reflexivity | discriminate].
  - split; [|split].
    + intros product.
      destruct (py_int (filter isdigit (c :: label))) as [v|e] eqn:E;
        [|discriminate].
      destruct (card_button elem); [|discriminate].
      intros H. injection H as <-. split; [|reflexivity].
      destruct (any_isdigit (c :: label)) eqn:A; [reflexivity|].
      apply any_isdigit_filter in A. rewrite A in E. discriminate.
    + intros e ->. reflexivity.
    + intros v button -> ->. eexists. split; reflexivity.
Qed.

Lemma py_int_no_digit (label : text) :
  any_isdigit label = false -> exists e, py_int (filter isdigit label) = Raise e.
Proof.
  intros A. apply any_isdigit_filter in A. rewrite A. apply py_int_empty.
Qed.

(** C2, as the code has it.  On a page with at least one card
    [get_all_products] returns the products of the cards it keeps, in page
    order.  The price of each is the integer written by all the digits of
    the card's price label taken together, in order (["Price: 1,200"] gives
    1200), not by its first digit run alone, and a card that has a button
    and whose label digits are decimal digits, at most [int_max_str_digits]
    of them, is kept with that price.  A card whose price cannot be parsed
    ([int] raises: the label has no digit, a digit that is no decimal digit,
    or more digits than [int] converts) is skipped: it yields no product,
    and no default price. *)
Theorem catalog_price_joins_all_digits (cards : list card) :
  cards <> [] ->
  exists products,
    get_all_products cards = Ok products
    /\ products = kept read_card cards
    /\ (forall product,
          In product products ->
          exists elem label,
            In elem cards
            /\ read_card elem = Some product
            /\ price_label (card_paragraphs elem) = Some label
            /\ any_isdigit label = true
            /\ all_decimal (filter isdigit label)
            /\ (List.length (filter isdigit label) <= int_max_str_digits)%nat
            /\ price product = digits_value (filter isdigit label))
    /\ (forall elem label button,
          In elem cards ->
          price_label (card_paragraphs elem) = Some label ->
          card_button elem = Some button ->
          any_isdigit label = true ->
          all_decimal (filter isdigit label) ->
          (List.length (filter isdigit label) <= int_max_str_digits)%nat ->
          exists product,
            In product products
            /\ read_card elem = Some product
            /\ price product = digits_value (filter isdigit label))
    /\ (forall elem label,
          In elem cards ->
          price_label (card_paragraphs elem) = Some label ->
          (any_isdigit label = false
           \/ (int_max_str_digits < List.length (filter isdigit label))%nat
           \/ exists e, py_int (filter isdigit label) = Raise e) ->
          read_card elem = None).
Proof.
  intros Hne. exists (kept read_card cards).
  split; [now apply get_all_products_kept|]. split; [reflexivity|].
  split; [|split].
  - intros product Hin. apply kept_In in Hin as [elem [Helem Hread]].
    assert (exists label, price_label (card_paragraphs elem) = Some label)
      as [label Hlabel].
    { unfold read_card in Hread.
      destruct (card_paragraphs elem); [discriminate|].
      destruct (price_label _) as [label|]; [now exists label | discriminate]. }
    exists elem, label.
    destruct (read_card_price elem label Hlabel) as [Hkept _].
    destruct (Hkept product Hread) as [Hany Hint].
    apply py_int_ok in Hint as [_ [Hdec [Hlen Hval]]].
    repeat split; assumption.
  - intros elem label button Helem Hlabel Hbutton Hany Hdec Hlen.
    destruct (read_card_price elem label Hlabel) as [_ [_ Hin]].
    destruct (Hin (digits_value (filter isdigit label)) button)
      as [product [Hread Hprice]]; [|exact Hbutton|].
    + apply py_int_ok. repeat split; [|exact Hdec|exact Hlen].
      intros E. apply any_isdigit_filter in E. congruence.
    + exists product. repeat split; [|exact Hread|exact Hprice].
      apply kept_In. now exists elem.
  - intros elem label _ Hlabel Hnone.
    destruct (read_card_price elem label Hlabel) as [_ [Hskip _]].
    destruct Hnone as [Hnone | [Hlong | [e He]]].
    + apply py_int_no_digit in Hnone as [e He]. now apply (Hskip e).
    + apply py_int_too_long in Hlong as [e He]. now apply (Hskip e).
    + now apply (Hskip e).
Qed.

Lemma catalog_price_joins_all_digits_witness :
  let honey := {| card_element := 1%nat;
                  card_paragraphs := [py "Max Honey"; py "Price: 1,200"];
                  card_button := Some 11%nat |} in
  let banner := {| card_element := 2%nat;
                   card_paragraphs := [py "Soon"; py "Price: on request"];
                   card_button := Some 12%nat |} in
  [honey; banner] <> []
  /\ get_all_products [honey; banner]
     = Ok [{| name := py "Max Honey"; price := 1200; element := 1%nat;
              add_to_cart_button := 11%nat |}]
  /\ exists products,
       get_all_products [honey; banner] = Ok products
       /\ products = kept read_card [honey; banner].
Proof.
  intros honey banner.
  split; [discriminate|]. split; [reflexivity|].
  destruct (catalog_price_joins_all_digits [honey; banner])
    as [products [H1 [H2 _]]]; [discriminate|].
  exists products. split; [exact H1 | exact H2].
Defined.

(** C2, as stated, fails: from the label ["Price: 1,200"] the catalog takes
    the price 1200, while the first digit run of that text denotes 1. *)
Lemma catalog_price_not_first_digit_run :
  let honey := {| card_element := 1%nat;
                  card_paragraphs := [py "Max Honey"; py "Price: 1,200"];
                  card_button := Some 11%nat |} in
  price_label (card_paragraphs honey) = Some (py "Price: 1,200")
  /\ spec_first_digit_run_price (py "Price: 1,200") = Some 1
  /\ option_map price (read_card honey) = Some 1200
  /\ option_map price (read_card honey)
     <> spec_first_digit_run_price (py "Price: 1,200").
Proof. repeat split. discriminate. Qed.

(** *** Adding the selected pair *)

Lemma str_eqb_refl (a : text) : str_eqb a a = true.
Proof.
  induction a as [|c a IH]; simpl; [reflexivity|].
  now rewrite Ascii.eqb_refl, IH.
Qed.

(** C8.  When the selection for a known category returns a pair with a
    side that is [None], [add_selected_products_to_cart] raises the
    exception "Could not find required products for <category>" and leaves
    the list of clicked add buttons as it was: no add action is triggered
    for either product. *)
Theorem incomplete_pair_adds_nothing
  (pg : page) (category : text) (done : added)
  (product1 product2 : option product) :
  (category = py "moisturizers"
   /\ select_moisturizer_products (cards pg) = Ok (product1, product2))
  \/ (category = py "sunscreens"
      /\ select_sunscreen_products (cards pg) = Ok (product1, product2)) ->
  product1 = None \/ product2 = None ->
  add_selected_products_to_cart pg category done
  = (Raise (PyException
              (py "Could not find required products for " ++ category)),
     done).
Proof.
  intros Hsel Hnone. unfold add_selected_products_to_cart, bind, lift.
  destruct Hsel as [[-> Hsel] | [-> Hsel]].
  - rewrite str_eqb_refl, Hsel.
    destruct Hnone as [-> | ->]; [reflexivity|].
    now destruct product1.
  - replace (str_eqb (py "sunscreens") (py "moisturizers")) with false
      by reflexivity.
    rewrite str_eqb_refl, Hsel.
    destruct Hnone as [-> | ->]; [reflexivity|].
    now destruct product1.
Qed.

Lemma incomplete_pair_adds_nothing_witness :
  let pg := {| cards := [{| card_element := 1%nat;
                            card_paragraphs := [py "Garnier Aloe Gel";
                                                py "Price: Rs. 150"];
                            card_button := Some 11%nat |}];
               button_clickable := fun _ => true |} in
  let aloe := {| name := py "Garnier Aloe Gel"; price := 150;
                 element := 1%nat; add_to_cart_button := 11%nat |} in
  select_moisturizer_products (cards pg) = Ok (Some aloe, None)
  /\ add_selected_products_to_cart pg (py "moisturizers") []
     = (Raise (PyException
                 (py "Could not find required products for "
                  ++ py "moisturizers")),
        []).
Proof.
  intros pg aloe. split; [reflexivity|].
  apply (incomplete_pair_adds_nothing pg (py "moisturizers") []
           (Some aloe) None).
  - left. split; reflexivity.
  - right. reflexivity.
Defined.

(** With both sides found and both buttons clickable, the two add buttons
    are clicked, first then second, and the prices are summed. *)
Lemma complete_pair_adds_both
  (pg : page) (done : added) (product1 product2 : product) :
  select_sunscreen_products (cards pg) = Ok (Some product1, Some product2) ->
  button_clickable pg (add_to_cart_button product1) = true ->
  button_clickable pg (add_to_cart_button product2) = true ->
  add_selected_products_to_cart pg (py "sunscreens") done
  = (Ok ((product1, product2), price product1 + price product2),
     done ++ [add_to_cart_button product1; add_to_cart_button product2]).
Proof.
  intros Hsel H1 H2.
  unfold add_selected_products_to_cart, bind, lift.
  replace (str_eqb (py "sunscreens") (py "moisturizers")) with false
    by reflexivity.
  rewrite str_eqb_refl, Hsel.
  unfold add_product_to_cart, try_except, modify, ret. rewrite H1, H2.
  now rewrite <- app_assoc.
Qed.

(** An unknown category raises [ValueError] before anything is read or
    clicked. *)
Lemma unknown_category_raises (pg : page) (done : added) :
  add_selected_products_to_cart pg (py "none") done
  = (Raise (ValueError (py "Unknown product category: " ++ py "none")), done).
Proof. reflexivity. Qed.

End ProductPageFacts.

(** ** [CartPage] *)

Section CartPageFacts.
Import PyStr Py CartPage.

Lemma read_rows_kept (found : list row) (acc : list cart_item) :
  read_rows found acc = acc ++ kept read_row found.
Proof.
  revert acc. induction found as [|r found IH]; intros acc; simpl.
  - now rewrite app_nil_r.
  - destruct (read_row r); rewrite IH; [|reflexivity].
    now rewrite <- app_assoc.
Qed.

Lemma get_cart_items_kept (pg : page) :
  get_cart_items pg = if table_present pg then kept read_row (rows pg) else [].
Proof.
  unfold get_cart_items. destruct (table_present pg); [|reflexivity].
  destruct (rows pg) as [|r found] eqn:E; [reflexivity|].
  now rewrite read_rows_kept.
Qed.

Lemma py_sum_from (l : list Z) (a : Z) :
  fold_left Z.add l a = a + fold_left Z.add l 0.
Proof.
  revert a. induction l as [|x l IH]; intros a; simpl; [lia|].
  rewrite (IH (a + x)), (IH x). lia.
Qed.

Lemma py_sum_prices (lines : list cart_item) :
  py_sum (map price lines) = sum_of_prices lines.
Proof.
  unfold py_sum. induction lines as [|l lines IH]; simpl; [reflexivity|].
  rewrite py_sum_from, IH. reflexivity.
Qed.

(** The digit search sees through [strip]: white space holds no digit. *)
Lemma re_search_digits_strip (x : ascii) (t : text) :
  re_search_digits (remove_char x (strip t))
  = re_search_digits (remove_char x t).
Proof.
  destruct (strip_decompose t) as [a [b [E [Ha Hb]]]].
  transitivity (re_search_digits (remove_char x (a ++ strip t ++ b)));
    [|now rewrite <- E].
  rewrite !remove_char_app.
  rewrite re_search_digits_prefix
    by now apply no_decimal_remove_char, spaces_no_decimal.
  rewrite re_search_digits_suffix
    by now apply no_decimal_remove_char, spaces_no_decimal.
  reflexivity.
Qed.

Lemma read_row_without_digit (r : row) :
  has_decimal_digit (price_field r) = false -> read_row r = None.
Proof.
  unfold has_decimal_digit, price_field, read_row.
  destruct r as [|cell0 [|cell1 r]]; try reflexivity.
  simpl nth. intros H. apply has_no_decimal_iff in H.
  destruct (negb (any_isdigit (strip cell1))); [reflexivity|].
  rewrite re_search_digits_strip, re_search_digits_none; [reflexivity|].
  now apply no_decimal_remove_char.
Qed.

Lemma read_row_line (r : row) (line : cart_item) :
  read_row r = Some line ->
  has_decimal_digit (price_text line) = true
  /\ exists run,
       re_search_digits (remove_char ","%char (price_field r)) = Some run
       /\ price line = digits_value run.
Proof.
  unfold read_row, price_field, has_decimal_digit.
  destruct r as [|cell0 [|cell1 r]]; try discriminate.
  simpl nth.
  destruct (negb (any_isdigit (strip cell1))); [discriminate|].
  destruct (re_search_digits (remove_char "," (strip cell1))) as [run|] eqn:E;
    [|discriminate].
  destruct (py_int run) as [v|e] eqn:P; [|discriminate].
  apply py_int_ok in P as [_ [_ [_ ->]]].
  intros H. injection H as <-. simpl. split.
  - destruct (existsb isdecimal (strip cell1)) eqn:D; [reflexivity|].
    apply has_no_decimal_iff in D.
    rewrite re_search_digits_none in E; [discriminate|].
    now apply no_decimal_remove_char.
  - exists run. split; [|reflexivity]. now rewrite <- re_search_digits_strip.
Qed.

(** C5.  A cart row whose price field has no decimal digit yields no line:
    the snapshot is the one the page would give without that row (the row is
    not recorded with price 0 or any other price), every line of the
    snapshot comes from another row and has a digit in its price text, and
    the expected total, which is the sum of the prices of the lines of the
    snapshot, is the same with and without the row. *)
Theorem digitless_row_excluded
  (pg : page) (before after : list row) (r : row) :
  rows pg = before ++ r :: after ->
  has_decimal_digit (price_field r) = false ->
  read_row r = None
  /\ get_cart_items pg = get_cart_items (with_rows pg (before ++ after))
  /\ (forall line,
        In line (get_cart_items pg) ->
        has_decimal_digit (price_text line) = true
        /\ exists r', In r' (before ++ after) /\ read_row r' = Some line)
  /\ calculate_expected_total pg = sum_of_prices (get_cart_items pg)
  /\ calculate_expected_total pg
     = calculate_expected_total (with_rows pg (before ++ after)).
Proof.
  intros Hrows Hdigit.
  pose proof (read_row_without_digit r Hdigit) as Hr.
  assert (Hsame : get_cart_items pg
                  = get_cart_items (with_rows pg (before ++ after))).
  { rewrite !get_cart_items_kept. simpl. rewrite Hrows.
    destruct (table_present pg); [|reflexivity].
    rewrite !kept_app. simpl. now rewrite Hr. }
  split; [exact Hr|]. split; [exact Hsame|]. split; [|split].
  - intros line Hline. rewrite Hsame, get_cart_items_kept in Hline.
    simpl in Hline. destruct (table_present pg); [|destruct Hline].
    apply kept_In in Hline as [r' [Hin Hread]].
    split; [now apply (read_row_line r')|]. now exists r'.
  - unfold calculate_expected_total. apply py_sum_prices.
  - unfold calculate_expected_total. now rewrite Hsame.
Qed.

Lemma digitless_row_excluded_witness :
  let header := [py "Item"; py "Price"] in
  let cream := [py "Max Honey and Almond"; py " 1,200 "] in
  let pg := {| table_present := true; rows := [header; cream];
               total_text := Some (py "Total: Rupees 1,200") |} in
  rows pg = [] ++ header :: [cream]
  /\ has_decimal_digit (price_field header) = false
  /\ get_cart_items pg
     = [{| name := py "Max Honey and Almond"; price := 1200;
           price_text := py "1,200" |}]
  /\ calculate_expected_total pg = 1200
  /\ read_row header = None
  /\ get_cart_items pg = get_cart_items (with_rows pg ([] ++ [cream])).
Proof.
  intros header cream pg.
  split; [reflexivity|]. split; [reflexivity|].
  split; [reflexivity|]. split; [reflexivity|].
  destruct (digitless_row_excluded pg [] [cream] header) as [H1 [H2 _]];
    [reflexivity | reflexivity |].
  split; [exact H1 | exact H2].
Defined.

(** C9, as the code has it.  [get_displayed_total] never raises.  It
    returns 0 when the total field cannot be read, when its text has no
    decimal digit, and when the first digit run of the text with its commas
    removed has more than [int_max_str_digits] digits ([int] refuses it and
    the handler answers 0); when that run has at most [int_max_str_digits]
    digits, it returns the integer the run denotes. *)
Theorem displayed_total_meets_spec (pg : page) (total : Z) :
  displayed_total_spec (total_text pg) total ->
  get_displayed_total pg = total.
Proof.
  unfold get_displayed_total. intros H.
  inversion H as [E | t Hnone E
                 | t pre run post Hsplit Hpre Hne Hrun Hpost Hlen E
                 | t pre run post Hsplit Hpre Hne Hrun Hpost Hlen E].
  - reflexivity.
  - rewrite re_search_digits_strip, re_search_digits_none; [reflexivity|].
    now apply no_decimal_remove_char.
  - rewrite re_search_digits_strip.
    rewrite (re_search_digits_found _ pre run post Hsplit Hpre Hne Hrun Hpost).
    destruct (py_int_too_long run Hlen) as [e ->]. reflexivity.
  - rewrite re_search_digits_strip.
    rewrite (re_search_digits_found _ pre run post Hsplit Hpre Hne Hrun Hpost).
    now rewrite py_int_decimal.
Qed.

Lemma displayed_total_meets_spec_witness :
  let pg := {| table_present := true; rows := [];
               total_text := Some (py "Total: Rupees 1,234 (2 items)") |} in
  displayed_total_spec (total_text pg) 1234
  /\ get_displayed_total pg = 1234.
Proof.
  intros pg.
  assert (H : displayed_total_spec (total_text pg) 1234).
  { apply (total_first_run (py "Total: Rupees 1,234 (2 items)")
             (py "Total: Rupees ") (py "1234") (py " (2 items)")).
    - reflexivity.
    - apply has_no_decimal_iff. reflexivity.
    - discriminate.
    - apply Forall_forall. apply forallb_forall. reflexivity.
    - reflexivity.
    - apply Nat.leb_le. reflexivity. }
  split; [exact H|]. exact (displayed_total_meets_spec pg 1234 H).
Defined.

(** C9, as stated, fails: a total text of 4301 nines has a digit run, which
    denotes a positive number, and [get_displayed_total] returns 0. *)
Lemma displayed_total_long_run_is_zero :
  let t := repeat "9"%char 4301 in
  let pg := {| table_present := true; rows := []; total_text := Some t |} in
  re_search_digits (remove_char ","%char t) = Some t
  /\ (exists v, spec_first_run_total t = Some v /\ 0 < v)
  /\ get_displayed_total pg = 0
  /\ Some (get_displayed_total pg) <> spec_first_run_total t.
Proof.
  intros t pg.
  assert (Hrun : re_search_digits (remove_char ","%char t) = Some t)
    by (vm_compute; reflexivity).
  assert (Hpos : 0 < digits_value t) by (vm_compute; reflexivity).
  assert (Hzero : get_displayed_total pg = 0) by (vm_compute; reflexivity).
  split; [exact Hrun|].
  unfold spec_first_run_total. rewrite Hrun, Hzero. cbn [option_map].
  split; [now exists (digits_value t)|]. split; [reflexivity|].
  intros H. injection H as H. rewrite <- H in Hpos. discriminate.
Qed.

(** Every total field falls under the specification: the function is total
    and its result is the one the specification names. *)
Lemma displayed_total_spec_total (pg : page) :
  displayed_total_spec (total_text pg) (get_displayed_total pg).
Proof.
  unfold get_displayed_total.
  destruct (total_text pg) as [t|]; [|constructor].
  rewrite re_search_digits_strip.
  destruct (re_search_digits (remove_char "," t)) as [run|] eqn:E.
  - destruct (re_search_digits_decompose _ _ E)
      as (pre & post & Hsplit & Hpre & Hne & Hrun & Hpost).
    destruct (Nat.le_gt_cases (List.length run) int_max_str_digits)
      as [Hlen | Hlen].
    + rewrite py_int_decimal by assumption.
      now apply (total_first_run t pre run post).
    + destruct (py_int_too_long run Hlen) as [e ->].
      now apply (total_run_too_long t pre run post).
  - apply total_without_digit.
    apply (no_decimal_remove_char_inv ","%char); [reflexivity|].
    now apply re_search_digits_none_inv.
Qed.

End CartPageFacts.

(** ** [PaymentPage] *)

Section PaymentPageFacts.
Import PyStr Py PaymentPage.

Lemma submit_payment_form_context (pg : page) (d : driver) :
  context (snd (submit_payment_form pg d)) = TopLevel.
Proof.
  unfold submit_payment_form, try_except, bind, wait_frame_and_switch,
    find_element, script_click, default_content, switch_to, modify, raise, ret.
  destruct (frame_available pg); [|reflexivity].
  destruct (payer_button pg) as [payer|];
    [destruct (click_succeeds pg payer); [reflexivity|]|];
    (destruct (submit_button pg) as [submit|];
      [destruct (click_succeeds pg submit)|]; reflexivity).
Qed.

(** C7.  Whatever the page does during [submit_payment_form] (the frame
    never becomes available, the Payer button is found and clicked, the
    fallback submit control is used, a lookup or a click raises) and
    whatever context the driver started in, the driver is in the top-level
    context when the method is done, both when it returns and when it
    raises. *)
Theorem submit_payment_form_exits_frame (pg : page) (d : driver) :
  context (snd (submit_payment_form pg d)) = TopLevel
  /\ (forall d', submit_payment_form pg d = (Ok tt, d') ->
                 context d' = TopLevel)
  /\ (forall e d', submit_payment_form pg d = (Raise e, d') ->
                   context d' = TopLevel).
Proof.
  pose proof (submit_payment_form_context pg d) as H.
  split; [exact H|].
  split; [intros d' E | intros e d' E]; rewrite E in H; exact H.
Qed.

(** The form is submitted exactly when the frame is entered and one of the
    two controls is found and clicked. *)
Lemma submit_payment_form_outcome (pg : page) (d : driver) :
  fst (submit_payment_form pg d) = Ok tt <->
  frame_available pg = true
  /\ ((exists payer, payer_button pg = Some payer
                     /\ click_succeeds pg payer = true)
      \/ (exists submit, submit_button pg = Some submit
                         /\ click_succeeds pg submit = true)).
Proof.
  unfold submit_payment_form, try_except, bind, wait_frame_and_switch,
    find_element, script_click, default_content, switch_to, modify, raise, ret.
  destruct (frame_available pg);
    [|simpl; split; [discriminate | intros [H _]; discriminate]].
  destruct (payer_button pg) as [payer|];
    [destruct (click_succeeds pg payer) eqn:Ep|];
    (destruct (submit_button pg) as [submit|];
      [destruct (click_succeeds pg submit) eqn:Es|]); simpl;
    split; intros H; try discriminate; try (split; [reflexivity|]);
    try (left; now eexists); try (right; now eexists);
    destruct H as [_ [[x [Hx Hc]] | [x [Hx Hc]]]]; congruence.
Qed.

Lemma until_timeout (method : nat -> bool) (remaining attempt : nat) :
  (forall i, (attempt <= i <= attempt + remaining)%nat -> method i = false) ->
  until method attempt remaining = Raise TimeoutException.
Proof.
  revert attempt. induction remaining as [|remaining IH]; intros attempt H; simpl.
  - rewrite H by lia. reflexivity.
  - rewrite H by lia. apply IH. intros i Hi. apply H. lia.
Qed.

Lemma until_found (method : nat -> bool) (remaining attempt : nat) :
  (exists i, (attempt <= i <= attempt + remaining)%nat /\ method i = true) ->
  until method attempt remaining = Ok true.
Proof.
  revert attempt. induction remaining as [|remaining IH];
    intros attempt [i [Hi Hm]]; simpl.
  - replace attempt with i by lia. now rewrite Hm.
  - destruct (method attempt) eqn:E; [reflexivity|].
    apply IH. exists i. split; [|exact Hm].
    assert (i <> attempt) by congruence. lia.
Qed.

(** The wait has two ways out only. *)
Lemma until_outcome (method : nat -> bool) (remaining attempt : nat) :
  until method attempt remaining = Ok true
  \/ until method attempt remaining = Raise TimeoutException.
Proof.
  revert attempt. induction remaining as [|remaining IH]; intros attempt; simpl;
    destruct (method attempt); auto.
Qed.

(** [submit_payment] always returns a boolean. *)
Lemma submit_payment_definite (pg : page) (d : driver) :
  exists outcome, fst (submit_payment pg d) = Ok outcome.
Proof.
  unfold submit_payment, try_except, bind, lift, ret.
  destruct (submit_payment_form pg d) as [[[]|e] d']; [|now eexists].
  destruct (until_outcome (success_indicator pg) (further_polls pg) 0)
    as [-> | ->]; now eexists.
Qed.

(** C6.  Once the form has been submitted, if no poll of the confirmation
    wait sees a success indicator before the deadline, [submit_payment]
    returns [False]; and on every page [submit_payment] returns one of the
    two booleans: it never raises and has no third outcome. *)
Theorem submit_payment_timeout_is_failure (pg : page) (d : driver) :
  fst (submit_payment_form pg d) = Ok tt ->
  (forall attempt, (attempt <= further_polls pg)%nat ->
                   success_indicator pg attempt = false) ->
  fst (submit_payment pg d) = Ok false
  /\ context (snd (submit_payment pg d)) = TopLevel
  /\ (forall pg' d', exists outcome, fst (submit_payment pg' d') = Ok outcome).
Proof.
  intros Hsubmitted Hnone.
  split; [|split; [|intros pg' d'; apply submit_payment_definite]].
  - unfold submit_payment, try_except, bind, lift, ret.
    destruct (submit_payment_form pg d) as [[[]|e] d']; [|reflexivity].
    rewrite until_timeout; [reflexivity|].
    intros i Hi. apply Hnone. lia.
  - pose proof (submit_payment_form_context pg d) as Hctx.
    unfold submit_payment, try_except, bind, lift, ret.
    destruct (submit_payment_form pg d) as [[[]|e] d']; [|exact Hctx].
    simpl in Hctx.
    destruct (until (success_indicator pg) 0 (further_polls pg));
      exact Hctx.
Qed.

Lemma submit_payment_timeout_is_failure_witness :
  let pg := {| frame_available := true;
               payer_button := None;
               submit_button := Some 7%nat;
               click_succeeds := fun _ => true;
               success_message_present := fun _ => false;
               alt_success_message_present := fun _ => false;
               further_polls := 19 |} in
  let d := {| context := TopLevel; clicked := [] |} in
  fst (submit_payment_form pg d) = Ok tt
  /\ submit_payment pg d
     = (Ok false, {| context := TopLevel; clicked := [7%nat] |})
  /\ fst (submit_payment pg d) = Ok false.
Proof.
  intros pg d. split; [reflexivity|]. split; [reflexivity|].
  apply (submit_payment_timeout_is_failure pg d).
  - reflexivity.
  - intros attempt _. reflexivity.
Defined.

(** [submit_payment] returns [True] exactly when the form was submitted
    and some poll of the confirmation wait, before its deadline, saw a
    success indicator. *)
Lemma submit_payment_success_iff (pg : page) (d : driver) :
  fst (submit_payment pg d) = Ok true <->
  fst (submit_payment_form pg d) = Ok tt
  /\ exists attempt, (attempt <= further_polls pg)%nat
                     /\ success_indicator pg attempt = true.
Proof.
  unfold submit_payment, try_except, bind, lift, ret.
  destruct (submit_payment_form pg d) as [[[]|e] d']; simpl.
  - split.
    + intros H. split; [reflexivity|].
      destruct (existsb (success_indicator pg) (seq 0 (S (further_polls pg))))
        eqn:E.
      * apply existsb_exists in E as [i [Hi Hm]]. apply in_seq in Hi.
        exists i. split; [lia | exact Hm].
      * rewrite until_timeout in H; [discriminate|].
        intros i Hi.
        destruct (success_indicator pg i) eqn:Ei; [|reflexivity].
        assert (existsb (success_indicator pg)
                  (seq 0 (S (further_polls pg))) = true); [|congruence].
        apply existsb_exists. exists i. split; [|exact Ei].
        apply in_seq. lia.
    + intros [_ [i [Hi Hm]]]. rewrite until_found; [reflexivity|].
      exists i. split; [lia | exact Hm].
  - split; [discriminate | intros [H _]; discriminate].
Qed.

End PaymentPageFacts.

(** ** Further facts: numbers read from text *)

Section NumberFacts.
Import PyStr Py.

Lemma digit_value_range (c : ascii) :
  isdecimal c = true -> 0 <= digit_value c <= 9.
Proof.
  unfold isdecimal, between, digit_value. intros H.
  apply andb_true_iff in H as [H1 H2].
  apply N.leb_le in H1. apply N.leb_le in H2. lia.
Qed.

Lemma digits_value_from (s : text) (acc : Z) :
  all_decimal s -> 0 <= acc ->
  0 <= fold_left (fun a c => 10 * a + digit_value c) s acc.
Proof.
  intros Hs. revert acc.
  induction Hs as [|c s Hc _ IH]; intros acc Hacc; cbn [fold_left].
  - exact Hacc.
  - apply IH. pose proof (digit_value_range c Hc). lia.
Qed.

Lemma digits_value_nonneg (s : text) : all_decimal s -> 0 <= digits_value s.
Proof. intros H. unfold digits_value. apply digits_value_from; [exact H | lia]. Qed.

Lemma py_int_nonneg (s : text) (v : Z) : py_int s = Ok v -> 0 <= v.
Proof.
  intros H. apply py_int_ok in H as [_ [Hdec [_ ->]]].
  now apply digits_value_nonneg.
Qed.

Lemma re_search_digits_some_or_none (s : text) :
  (exists run, re_search_digits s = Some run /\ run <> [] /\ all_decimal run)
  \/ (re_search_digits s = None /\ no_decimal s).
Proof.
  destruct (re_search_digits s) as [run|] eqn:E.
  - left. exists run. split; [reflexivity|]. now apply re_search_digits_run in E.
  - right. split; [reflexivity|]. now apply re_search_digits_none_inv.
Qed.

End NumberFacts.

(** ** [HomePage], continued *)

Section HomePageMore.
Import PyStr Py HomePage.

(** X1.  A temperature that [get_current_temperature] returns is the number
    written by the first run of decimal digits of the displayed text; what
    precedes the run, a minus sign included, is ignored, so the reading is
    never negative. *)
Theorem temperature_is_first_digit_run (p : page) (t : Z) :
  get_current_temperature p = Ok t ->
  0 <= t
  /\ exists shown pre run post,
       temperature_text p = Some shown
       /\ shown = pre ++ run ++ post
       /\ no_decimal pre /\ run <> [] /\ all_decimal run
       /\ digit_free_start post
       /\ t = digits_value run.
Proof.
  unfold get_current_temperature.
  destruct (temperature_text p) as [shown|]; [|discriminate].
  destruct (re_search_digits shown) as [run|] eqn:E; [|discriminate].
  destruct (re_search_digits_decompose _ _ E)
    as (pre & post & Hsplit & Hpre & Hne & Hrun & Hpost).
  destruct (py_int run) as [v|e] eqn:P; [|discriminate].
  apply py_int_ok in P as [_ [_ [_ ->]]]. intros H. injection H as <-.
  split; [now apply digits_value_nonneg|].
  exists shown, pre, run, post. repeat split; assumption.
Qed.

Lemma temperature_is_first_digit_run_witness :
  let p := {| temperature_text := Some (py "-5 C (felt 12.5)");
              clickable := fun _ => true |} in
  get_current_temperature p = Ok 5
  /\ 0 <= 5
  /\ exists shown pre run post,
       temperature_text p = Some shown
       /\ shown = pre ++ run ++ post
       /\ no_decimal pre /\ run <> [] /\ all_decimal run
       /\ digit_free_start post
       /\ 5 = digits_value run.
Proof.
  intros p. split; [reflexivity|].
  apply (temperature_is_first_digit_run p 5). reflexivity.
Defined.

(** X2.  [get_current_temperature] raises exactly when the temperature
    element is not found, its text has no decimal digit, or the first digit
    run of its text has more than [int_max_str_digits] digits. *)
Theorem temperature_unreadable_iff (p : page) :
  (exists e, get_current_temperature p = Raise e)
  <-> temperature_text p = None
      \/ exists shown,
           temperature_text p = Some shown
           /\ (no_decimal shown
               \/ exists run,
                    re_search_digits shown = Some run
                    /\ (int_max_str_digits < List.length run)%nat).
Proof.
  unfold get_current_temperature.
  destruct (temperature_text p) as [shown|].
  - destruct (re_search_digits_some_or_none shown)
      as [[run [E [Hne Hrun]]] | [E Hnone]]; rewrite E.
    + destruct (Nat.le_gt_cases (List.length run) int_max_str_digits)
        as [Hlen | Hlen].
      * rewrite (py_int_decimal run Hne Hrun Hlen). split.
        -- intros [e H]. discriminate.
        -- intros [H | [shown' [H [Hnone | [run' [E' Hlong]]]]]];
             [discriminate | |]; injection H as <-.
           ++ rewrite (re_search_digits_none shown Hnone) in E. discriminate.
           ++ rewrite E in E'. injection E' as <-. lia.
      * destruct (py_int_too_long run Hlen) as [e ->].
        split; [|intros _; now eexists].
        intros _. right. exists shown. split; [reflexivity|].
        right. now exists run.
    + split; [|intros _; now eexists].
      intros _. right. exists shown. split; [reflexivity|]. now left.
  - split; [intros _; now left | intros _; now eexists].
Qed.

(** For every reading exactly one of [should_buy_moisturizers],
    [should_buy_sunscreens] and [is_moderate_temperature] holds. *)
Lemma temperature_predicates_partition (t : Z) :
  (should_buy_moisturizers t = true
   /\ should_buy_sunscreens t = false /\ is_moderate_temperature t = false)
  \/ (should_buy_moisturizers t = false
      /\ should_buy_sunscreens t = true /\ is_moderate_temperature t = false)
  \/ (should_buy_moisturizers t = false
      /\ should_buy_sunscreens t = false /\ is_moderate_temperature t = true).
Proof.
  unfold should_buy_moisturizers, should_buy_sunscreens, is_moderate_temperature.
  rewrite Z.gtb_ltb.
  destruct (Z.ltb_spec t 19), (Z.ltb_spec 34 t),
    (Z.leb_spec 19 t), (Z.leb_spec t 34); simpl; try lia; auto.
Qed.

(** X4.  [navigate_to_appropriate_category], run on a page, clicks at most
    one button: the moisturizers button when it returns ["moisturizers"],
    the sunscreens button when it returns ["sunscreens"], none when it
    returns ["none"], and none when it raises. *)
Theorem navigate_clicks_the_button_of_its_category (p : page) (done : clicks) :
  match navigate p done with
  | (Ok category, done') =>
      (category = py "moisturizers" /\ done' = done ++ [MOISTURIZERS_BUTTON])
      \/ (category = py "sunscreens" /\ done' = done ++ [SUNSCREENS_BUTTON])
      \/ (category = py "none" /\ done' = done)
  | (Raise _, done') => done' = done
  end.
Proof.
  unfold navigate, bind, lift.
  destruct (get_current_temperature p) as [t|e]; [|reflexivity].
  unfold navigate_to_appropriate_category, click_moisturizers_button,
    click_sunscreens_button, click_element, bind, modify, raise, ret.
  destruct (should_buy_moisturizers t).
  - destruct (clickable p MOISTURIZERS_BUTTON); [left; auto | reflexivity].
  - destruct (should_buy_sunscreens t).
    + destruct (clickable p SUNSCREENS_BUTTON); [right; left; auto | reflexivity].
    + right; right; auto.
Qed.

End HomePageMore.

(** ** [ProductPage], continued *)

Section ProductPageMore.
Import PyStr Py ProductPage.

Lemma dropwhile_fixed (f : ascii -> bool) (s : text) :
  match s with [] => True | c :: _ => f c = false end ->
  dropwhile f s = s.
Proof. destruct s as [|c s]; simpl; [reflexivity|]. now intros ->. Qed.

Lemma rstrip_prefix (s : text) :
  exists tail, s = rstrip s ++ tail.
Proof.
  unfold rstrip. exists (rev (takewhile isspace (rev s))).
  rewrite <- rev_app_distr, <- takewhile_dropwhile. now rewrite rev_involutive.
Qed.

(** Stripping twice is stripping once: a stripped text neither begins nor
    ends with white space. *)
Lemma strip_idempotent (s : text) : strip (strip s) = strip s.
Proof.
  unfold strip.
  assert (Hl : lstrip (rstrip (lstrip s)) = rstrip (lstrip s)).
  { unfold lstrip at 1. apply dropwhile_fixed.
    destruct (rstrip_prefix (lstrip s)) as [tail E].
    destruct (rstrip (lstrip s)) as [|c r] eqn:R; [exact I|].
    pose proof (dropwhile_head isspace s) as H. fold (lstrip s) in H.
    rewrite E in H. exact H. }
  rewrite Hl. unfold rstrip at 1.
  replace (rev (rstrip (lstrip s)))
    with (dropwhile isspace (rev (lstrip s)))
    by (unfold rstrip; now rewrite rev_involutive).
  rewrite (dropwhile_fixed isspace (dropwhile isspace (rev (lstrip s))))
    by apply dropwhile_head.
  reflexivity.
Qed.

Lemma kept_length {A B} (f : A -> option B) (l : list A) :
  (List.length (kept f l) <= List.length l)%nat.
Proof.
  induction l as [|a l IH]; simpl; [lia|]. destruct (f a); simpl; lia.
Qed.

Lemma read_card_fields (elem : card) (product : product) :
  read_card elem = Some product ->
  0 <= price product
  /\ exists first others,
       card_paragraphs elem = first :: others
       /\ name product = strip first
       /\ element product = card_element elem
       /\ card_button elem = Some (add_to_cart_button product).
Proof.
  unfold read_card.
  destruct (card_paragraphs elem) as [|first others]; [discriminate|].
  destruct (price_label (first :: others)) as [[|c label]|]; try discriminate.
  destruct (py_int (filter isdigit (c :: label))) as [v|e] eqn:E;
    [|discriminate].
  destruct (card_button elem) as [button|]; [|discriminate].
  intros H. injection H as <-. simpl. split.
  - now apply (py_int_nonneg _ _ E).
  - exists first, others. repeat split.
Qed.

(** X5.  Every product [get_all_products] returns comes from a card of the
    page: its name is the card's first paragraph stripped of surrounding
    white space, its handles are the card's element and button, and its
    price is not negative; the catalog is never longer than the list of
    cards. *)
Theorem catalog_products_come_from_cards
  (cards : list card) (products : list product) :
  get_all_products cards = Ok products ->
  (List.length products <= List.length cards)%nat
  /\ forall product,
       In product products ->
       0 <= price product
       /\ strip (name product) = name product
       /\ exists elem first others,
            In elem cards
            /\ card_paragraphs elem = first :: others
            /\ name product = strip first
            /\ element product = card_element elem
            /\ card_button elem = Some (add_to_cart_button product).
Proof.
  intros H. assert (Hk : products = kept read_card cards).
  { destruct cards as [|c cards]; [discriminate|].
    rewrite get_all_products_kept in H by discriminate. congruence. }
  subst products. split; [apply kept_length|].
  intros product Hin. apply kept_In in Hin as [elem [Helem Hread]].
  destruct (read_card_fields elem product Hread)
    as [Hprice (first & others & Hp & Hname & Hel & Hb)].
  split; [exact Hprice|]. split; [rewrite Hname; apply strip_idempotent|].
  exists elem, first, others. repeat split; assumption.
Qed.

Lemma catalog_products_come_from_cards_witness :
  let cream := {| card_element := 1%nat;
                  card_paragraphs := [py "  Vassily Aloe Attack "; py "Price: 205"];
                  card_button := Some 11%nat |} in
  let decoration := {| card_element := 2%nat; card_paragraphs := [];
                       card_button := None |} in
  let products := [{| name := py "Vassily Aloe Attack"; price := 205;
                      element := 1%nat; add_to_cart_button := 11%nat |}] in
  get_all_products [cream; decoration] = Ok products
  /\ (List.length products <= List.length [cream; decoration])%nat.
Proof.
  intros cream decoration products. split; [reflexivity|].
  now destruct (catalog_products_come_from_cards [cream; decoration] products
                  eq_refl) as [H _].
Defined.

(** *** Filtering *)

Lemma str_in_false_iff (sub s : text) :
  str_in sub s = false <-> ~ Substring sub s.
Proof.
  rewrite <- str_in_iff. destruct (str_in sub s); split; congruence.
Qed.

(** X6.  For a tag without ["SPF"], [filter_products_by_ingredient] keeps
    exactly the products whose lower-cased name contains the lower-cased
    tag, so two such tags that differ only in case give the same list. *)
Theorem filter_free_text_ignores_case
  (products : list product) (ingredient other : text) :
  ~ Substring (py "SPF") ingredient ->
  ~ Substring (py "SPF") other ->
  lower other = lower ingredient ->
  exists filtered,
    filter_products_by_ingredient products ingredient = Ok filtered
    /\ filter_products_by_ingredient products other = Ok filtered
    /\ forall p, In p filtered <->
                 In p products
                 /\ Substring (lower ingredient) (lower (name p)).
Proof.
  intros H1 H2 Hcase. apply str_in_false_iff in H1, H2.
  unfold filter_products_by_ingredient. rewrite H1, H2, Hcase.
  eexists. split; [reflexivity|]. split; [reflexivity|].
  intros p. rewrite collect_filter. simpl.
  now rewrite filter_In, str_in_iff.
Qed.

Lemma filter_free_text_ignores_case_witness :
  let gel := {| name := py "Garnier ALOE Gel"; price := 150; element := 1%nat;
                add_to_cart_button := 11%nat |} in
  let oil := {| name := py "Jose Almond Oil"; price := 90; element := 2%nat;
                add_to_cart_button := 12%nat |} in
  filter_products_by_ingredient [gel; oil] (py "Aloe") = Ok [gel]
  /\ filter_products_by_ingredient [gel; oil] (py "aLOE") = Ok [gel].
Proof.
  intros gel oil.
  destruct (filter_free_text_ignores_case [gel; oil] (py "Aloe") (py "aLOE"))
    as [filtered [H1 [H2 _]]].
  - apply str_in_false_iff. reflexivity.
  - apply str_in_false_iff. reflexivity.
  - reflexivity.
  - split; [reflexivity|]. rewrite H2, <- H1. reflexivity.
Defined.

(** X7.  Whatever the tag, a list that [filter_products_by_ingredient]
    returns is the catalog filtered by a test on the product name alone: it
    keeps the catalog order, adds nothing, and treats products of the same
    name alike. *)
Theorem filter_selects_by_name
  (products filtered : list product) (ingredient : text) :
  filter_products_by_ingredient products ingredient = Ok filtered ->
  exists test : text -> bool,
    filtered = filter (fun p => test (name p)) products
    /\ (forall p, In p filtered -> In p products)
    /\ (List.length filtered <= List.length products)%nat.
Proof.
  unfold filter_products_by_ingredient. intros H.
  destruct (str_in (py "SPF") ingredient).
  - destruct (nth_error (split_on "-" ingredient) 1) as [n|]; [|discriminate].
    rewrite collect_filter in H. injection H as <-.
    exists (fun nm => str_in (py "SPF-" ++ n) nm || str_in (py "SPF " ++ n) nm).
    split; [reflexivity|]. split; [|apply filter_length_le].
    intros p Hp. now apply filter_In in Hp.
  - rewrite collect_filter in H. injection H as <-.
    exists (fun nm => str_in (lower ingredient) (lower nm)).
    split; [reflexivity|]. split; [|apply filter_length_le].
    intros p Hp. now apply filter_In in Hp.
Qed.

Lemma filter_selects_by_name_witness :
  let day := {| name := py "Day SPF-50"; price := 300; element := 1%nat;
                add_to_cart_button := 11%nat |} in
  let night := {| name := py "Night Cream"; price := 200; element := 2%nat;
                  add_to_cart_button := 12%nat |} in
  filter_products_by_ingredient [night; day; night] (py "SPF-50") = Ok [day]
  /\ exists test : text -> bool,
       [day] = filter (fun p => test (name p)) [night; day; night].
Proof.
  intros day night. split; [reflexivity|].
  destruct (filter_selects_by_name [night; day; night] [day] (py "SPF-50")
              eq_refl) as [test [H _]].
  now exists test.
Defined.

Lemma split_on_app_sep (sep : ascii) (a s : text) :
  ~ In sep a -> split_on sep (a ++ sep :: s) = a :: split_on sep s.
Proof.
  induction a as [|c a IH]; intros H; simpl.
  - now rewrite Ascii.eqb_refl.
  - destruct (Ascii.eqb c sep) eqn:E.
    + apply Ascii.eqb_eq in E. subst. exfalso. apply H. now left.
    + rewrite IH; [reflexivity|]. intros Hin. apply H. now right.
Qed.

(** X8.  Of an SPF tag only the piece between its first and second hyphen
    counts: a tag [before-n] or [before-n-more] that contains ["SPF"]
    selects the products whose name contains ["SPF-n"] or ["SPF n"],
    whatever [before] and [more] are. *)
Theorem filter_spf_uses_second_piece
  (products : list product) (before n more : text) :
  ~ In "-"%char before -> ~ In "-"%char n ->
  more = [] \/ (exists rest, more = "-"%char :: rest) ->
  Substring (py "SPF") (before ++ "-"%char :: n ++ more) ->
  filter_products_by_ingredient products (before ++ "-"%char :: n ++ more)
  = Ok (filter (fun p => str_in (py "SPF-" ++ n) (name p)
                         || str_in (py "SPF " ++ n) (name p)) products).
Proof.
  intros Hb Hn Hmore Hspf. unfold filter_products_by_ingredient.
  apply str_in_iff in Hspf. rewrite Hspf.
  rewrite split_on_app_sep by assumption.
  assert (Hsecond : exists pieces, split_on "-" (n ++ more) = n :: pieces).
  { destruct Hmore as [-> | [rest ->]].
    - rewrite app_nil_r, split_on_no_sep by assumption. now eexists.
    - rewrite split_on_app_sep by assumption. now eexists. }
  destruct Hsecond as [pieces ->]. cbn [nth_error].
  now rewrite collect_filter.
Qed.

Lemma filter_spf_uses_second_piece_witness :
  let day := {| name := py "Day SPF 50"; price := 300; element := 1%nat;
                add_to_cart_button := 11%nat |} in
  let sport := {| name := py "Sport SPF-30"; price := 200; element := 2%nat;
                  add_to_cart_button := 12%nat |} in
  filter_products_by_ingredient [day; sport] (py "Best SPF-50-plus")
  = Ok [day].
Proof.
  intros day sport.
  change (py "Best SPF-50-plus")
    with (py "Best SPF" ++ "-"%char :: py "50" ++ py "-plus").
  change [day] with
    (filter (fun p => str_in (py "SPF-" ++ py "50") (name p)
                      || str_in (py "SPF " ++ py "50") (name p)) [day; sport]).
  apply (filter_spf_uses_second_piece [day; sport]
           (py "Best SPF") (py "50") (py "-plus")).
  - simpl. intros H. repeat destruct H as [H | H]; try discriminate H; exact H.
  - simpl. intros H. repeat destruct H as [H | H]; try discriminate H; exact H.
  - right. now eexists.
  - apply str_in_iff. reflexivity.
Defined.

(** *** Selection *)

Lemma find_cheapest_product_spec (l : list product) :
  match find_cheapest_product l with
  | Some p => In p l /\ forall q, In q l -> price p <= price q
  | None => l = []
  end.
Proof.
  destruct l as [|first rest]; [reflexivity|]. cbn [find_cheapest_product].
  destruct (min_by_price_first_minimum rest [] [] first)
    as (b & p & a & Heq & Hmin & Hb & Ha); [intros q [] | intros q [] |].
  simpl in Heq. rewrite Hmin, Heq. split.
  - apply in_or_app. right. now left.
  - intros q Hq. apply in_app_or in Hq as [Hq | [<- | Hq]].
    + specialize (Hb q Hq). lia.
    + lia.
    + now apply Ha.
Qed.

Lemma cheapest_of_filter
  (catalog : list product) (test : product -> bool) (wanted : product -> Prop) :
  (forall p, test p = true <-> wanted p) ->
  cheapest_among catalog wanted (find_cheapest_product (filter test catalog)).
Proof.
  intros Htest. unfold cheapest_among.
  pose proof (find_cheapest_product_spec (filter test catalog)) as H.
  destruct (find_cheapest_product (filter test catalog)) as [p|].
  - destruct H as [Hin Hmin]. apply filter_In in Hin as [Hin Hp].
    split; [exact Hin|]. split; [now apply Htest|].
    intros q Hq Hw. apply Hmin. apply filter_In. split; [exact Hq|].
    now apply Htest.
  - intros q Hq Hw. apply Htest in Hw.
    assert (In q (filter test catalog)) as Hin by (apply filter_In; now split).
    rewrite H in Hin. destruct Hin.
Qed.

Lemma filter_free_text (products : list product) (ingredient : text) :
  str_in (py "SPF") ingredient = false ->
  filter_products_by_ingredient products ingredient
  = Ok (filter (fun p => str_in (lower ingredient) (lower (name p))) products).
Proof.
  intros H. unfold filter_products_by_ingredient. rewrite H.
  now rewrite collect_filter.
Qed.

Lemma no_hyphen_in_number (a b : ascii) :
  a <> "-"%char -> b <> "-"%char -> ~ In "-"%char [a; b].
Proof. intros Ha Hb [H | [H | []]]; congruence. Qed.

(** X9.  [select_moisturizer_products] raises [TimeoutException] on a page
    without cards; otherwise each side of the pair it returns is a product
    of the catalog whose name contains the ingredient (["aloe"], then
    ["almond"], in any case) and that no other such product undercuts, or
    [None] when the catalog has no such product. *)
Theorem select_moisturizers_cheapest_match (cards : list card) :
  match select_moisturizer_products cards with
  | Ok (cheapest_aloe, cheapest_almond) =>
      cards <> []
      /\ cheapest_among (kept read_card cards)
           (fun p => Substring (py "aloe") (lower (name p))) cheapest_aloe
      /\ cheapest_among (kept read_card cards)
           (fun p => Substring (py "almond") (lower (name p))) cheapest_almond
  | Raise e => cards = [] /\ e = TimeoutException
  end.
Proof.
  unfold select_moisturizer_products.
  destruct cards as [|c cards]; [now split|].
  rewrite get_all_products_kept by discriminate.
  set (catalog := kept read_card (c :: cards)).
  unfold result_bind. rewrite !filter_free_text by reflexivity.
  split; [discriminate|].
  split; apply cheapest_of_filter; intros p; apply str_in_iff.
Qed.

(** X10.  [select_sunscreen_products] raises [TimeoutException] on a page
    without cards; otherwise each side of the pair it returns is a product
    of the catalog whose name contains the SPF marking (["SPF-30"] or
    ["SPF 30"], then ["SPF-50"] or ["SPF 50"]) and that no other such
    product undercuts, or [None] when the catalog has no such product. *)
Theorem select_sunscreens_cheapest_match (cards : list card) :
  match select_sunscreen_products cards with
  | Ok (cheapest_spf30, cheapest_spf50) =>
      cards <> []
      /\ cheapest_among (kept read_card cards)
           (fun p => Substring (py "SPF-30") (name p)
                     \/ Substring (py "SPF 30") (name p)) cheapest_spf30
      /\ cheapest_among (kept read_card cards)
           (fun p => Substring (py "SPF-50") (name p)
                     \/ Substring (py "SPF 50") (name p)) cheapest_spf50
  | Raise e => cards = [] /\ e = TimeoutException
  end.
Proof.
  unfold select_sunscreen_products.
  destruct cards as [|c cards]; [now split|].
  rewrite get_all_products_kept by discriminate.
  set (catalog := kept read_card (c :: cards)).
  unfold result_bind.
  change (py "SPF-30") with (py "SPF-" ++ py "30").
  change (py "SPF-50") with (py "SPF-" ++ py "50").
  rewrite (filter_spf_tag catalog (py "30"))
    by (apply no_hyphen_in_number; discriminate).
  rewrite (filter_spf_tag catalog (py "50"))
    by (apply no_hyphen_in_number; discriminate).
  split; [discriminate|].
  split; apply cheapest_of_filter; intros p;
    rewrite orb_true_iff, !str_in_iff; reflexivity.
Qed.

(** *** Adding to the cart *)

Lemma str_eqb_eq (a b : text) : str_eqb a b = true <-> a = b.
Proof.
  revert b. induction a as [|x a IH]; intros [|y b]; simpl;
    try (split; [discriminate | congruence]); [tauto|].
  rewrite andb_true_iff, Ascii.eqb_eq, IH. split.
  - now intros [-> ->].
  - intros H. injection H as -> ->. now split.
Qed.

Lemma str_eqb_neq (a b : text) : a <> b -> str_eqb a b = false.
Proof.
  intros H. destruct (str_eqb a b) eqn:E; [|reflexivity].
  apply str_eqb_eq in E. contradiction.
Qed.

(** The selection [add_selected_products_to_cart] makes for a category. *)
Lemma add_selected_unfold (pg : page) (category : text) (done : added) :
  add_selected_products_to_cart pg category done
  = match (if str_eqb category (py "moisturizers")
           then select_moisturizer_products (cards pg)
           else if str_eqb category (py "sunscreens")
                then select_sunscreen_products (cards pg)
                else Raise (ValueError (py "Unknown product category: "
                                        ++ category))) with
    | Raise e => (Raise e, done)
    | Ok (Some product1, Some product2) =>
        if button_clickable pg (add_to_cart_button product1) then
          if button_clickable pg (add_to_cart_button product2) then
            (Ok ((product1, product2), price product1 + price product2),
             done ++ [add_to_cart_button product1; add_to_cart_button product2])
          else (Raise TimeoutException, done ++ [add_to_cart_button product1])
        else (Raise TimeoutException, done)
    | Ok _ =>
        (Raise (PyException (py "Could not find required products for "
                             ++ category)), done)
    end.
Proof.
  unfold add_selected_products_to_cart, bind, lift, raise.
  destruct (str_eqb category (py "moisturizers"));
    [|destruct (str_eqb category (py "sunscreens"))].
  3: reflexivity.
  all: match goal with
       | |- context [ select_moisturizer_products ?c ] =>
           destruct (select_moisturizer_products c) as [[[p1|] [p2|]]|e]
       | |- context [ select_sunscreen_products ?c ] =>
           destruct (select_sunscreen_products c) as [[[p1|] [p2|]]|e]
       end; try reflexivity.
  all: unfold add_product_to_cart, try_except, modify, raise, ret;
    destruct (button_clickable pg (add_to_cart_button p1));
    [destruct (button_clickable pg (add_to_cart_button p2))|];
    try reflexivity; now rewrite <- app_assoc.
Qed.

(** X11.  [add_selected_products_to_cart] clicks nothing but add buttons of
    the pair it selected for the category, first then second.  When it
    returns, the pair returned is the pair selected, both buttons were
    clicked, and the total is the sum of the two prices; when it raises,
    either nothing was clicked, or both products had been found and exactly
    the first one's button was clicked. *)
Theorem add_selected_clicks_in_order
  (pg : page) (category : text) (done : added) :
  let selected product1 product2 :=
    (category = py "moisturizers"
     /\ select_moisturizer_products (cards pg)
        = Ok (Some product1, Some product2))
    \/ (category = py "sunscreens"
        /\ select_sunscreen_products (cards pg)
           = Ok (Some product1, Some product2)) in
  match add_selected_products_to_cart pg category done with
  | (Ok ((product1, product2), total_price), done') =>
      selected product1 product2
      /\ total_price = price product1 + price product2
      /\ done' = done ++ [add_to_cart_button product1;
                          add_to_cart_button product2]
  | (Raise e, done') =>
      done' = done
      \/ exists product1 product2,
           selected product1 product2
           /\ done' = done ++ [add_to_cart_button product1]
  end.
Proof.
  cbv zeta. rewrite add_selected_unfold.
  destruct (str_eqb category (py "moisturizers")) eqn:Em.
  - apply str_eqb_eq in Em.
    destruct (select_moisturizer_products (cards pg))
      as [[[p1|] [p2|]]|e]; try (now left).
    destruct (button_clickable pg (add_to_cart_button p1));
      [destruct (button_clickable pg (add_to_cart_button p2))|].
    + split; [left; now split | now split].
    + right. exists p1, p2. split; [left; now split | reflexivity].
    + now left.
  - destruct (str_eqb category (py "sunscreens")) eqn:Es; [|now left].
    apply str_eqb_eq in Es.
    destruct (select_sunscreen_products (cards pg))
      as [[[p1|] [p2|]]|e]; try (now left).
    destruct (button_clickable pg (add_to_cart_button p1));
      [destruct (button_clickable pg (add_to_cart_button p2))|].
    + split; [right; now split | now split].
    + right. exists p1, p2. split; [right; now split | reflexivity].
    + now left.
Qed.

(** X12.  When both products are found and the first add button can be
    clicked but the second cannot, [add_selected_products_to_cart] raises
    [TimeoutException] with the first product already added. *)
Theorem second_add_failure_keeps_first
  (pg : page) (category : text) (done : added) (product1 product2 : product) :
  (category = py "moisturizers"
   /\ select_moisturizer_products (cards pg)
      = Ok (Some product1, Some product2))
  \/ (category = py "sunscreens"
      /\ select_sunscreen_products (cards pg)
         = Ok (Some product1, Some product2)) ->
  button_clickable pg (add_to_cart_button product1) = true ->
  button_clickable pg (add_to_cart_button product2) = false ->
  add_selected_products_to_cart pg category done
  = (Raise TimeoutException, done ++ [add_to_cart_button product1]).
Proof.
  intros Hsel H1 H2. rewrite add_selected_unfold.
  destruct Hsel as [[-> Hsel] | [-> Hsel]].
  - rewrite str_eqb_refl, Hsel, H1, H2. reflexivity.
  - rewrite (str_eqb_neq (py "sunscreens") (py "moisturizers")) by discriminate.
    rewrite str_eqb_refl, Hsel, H1, H2. reflexivity.
Qed.

Lemma second_add_failure_keeps_first_witness :
  let pg := {| cards := [{| card_element := 1%nat;
                            card_paragraphs := [py "Day SPF-30";
                                                py "Price: 120"];
                            card_button := Some 11%nat |};
                         {| card_element := 2%nat;
                            card_paragraphs := [py "Beach SPF-50";
                                                py "Price: 180"];
                            card_button := Some 12%nat |}];
               button_clickable := fun b => Nat.eqb b 11 |} in
  add_selected_products_to_cart pg (py "sunscreens") []
  = (Raise TimeoutException, [] ++ [11%nat]).
Proof.
  intros pg.
  apply (second_add_failure_keeps_first pg (py "sunscreens") []
           {| name := py "Day SPF-30"; price := 120; element := 1%nat;
              add_to_cart_button := 11%nat |}
           {| name := py "Beach SPF-50"; price := 180; element := 2%nat;
              add_to_cart_button := 12%nat |}).
  - right. split; reflexivity.
  - reflexivity.
  - reflexivity.
Defined.

(** X13.  A category other than ["moisturizers"] and ["sunscreens"], in
    this exact spelling, raises [ValueError] before the page is read or
    anything is clicked. *)
Theorem unknown_category_rejected
  (pg : page) (category : text) (done : added) :
  category <> py "moisturizers" -> category <> py "sunscreens" ->
  add_selected_products_to_cart pg category done
  = (Raise (ValueError (py "Unknown product category: " ++ category)), done).
Proof.
  intros Hm Hs. rewrite add_selected_unfold.
  now rewrite (str_eqb_neq _ _ Hm), (str_eqb_neq _ _ Hs).
Qed.

Lemma unknown_category_rejected_witness :
  let pg := {| cards := []; button_clickable := fun _ => true |} in
  add_selected_products_to_cart pg (py "Moisturizers") [5%nat]
  = (Raise (ValueError (py "Unknown product category: " ++ py "Moisturizers")),
     [5%nat]).
Proof.
  intros pg.
  apply (unknown_category_rejected pg (py "Moisturizers") [5%nat]);
    discriminate.
Defined.

End ProductPageMore.

(** ** [CartPage], continued *)

Section CartPageMore.
Import PyStr Py CartPage.

Lemma read_row_fields (r : row) (line : cart_item) :
  read_row r = Some line ->
  0 <= price line
  /\ exists cell0 cell1 others run,
       r = cell0 :: cell1 :: others
       /\ name line = strip cell0
       /\ price_text line = strip cell1
       /\ re_search_digits (remove_char ","%char cell1) = Some run
       /\ price line = digits_value run.
Proof.
  unfold read_row.
  destruct r as [|cell0 [|cell1 others]]; try discriminate.
  destruct (negb (any_isdigit (strip cell1))); [discriminate|].
  rewrite re_search_digits_strip.
  destruct (re_search_digits (remove_char "," cell1)) as [run|] eqn:E;
    [|discriminate].
  destruct (re_search_digits_run _ _ E) as [Hne Hdec].
  destruct (py_int run) as [v|e] eqn:P; [|discriminate].
  apply py_int_ok in P as [_ [_ [_ ->]]].
  intros H. injection H as <-. simpl. split.
  - now apply digits_value_nonneg.
  - exists cell0, cell1, others, run. repeat split. exact E.
Qed.

(** X14.  The snapshot [get_cart_items] returns is never longer than the
    list of rows, and each of its lines comes from a row with at least two
    cells: the name and the price text are the first two cells stripped of
    surrounding white space, and the price is the number written by the
    first digit run of the price cell once its commas are removed, never a
    negative number. *)
Theorem cart_lines_come_from_rows (pg : page) :
  (List.length (get_cart_items pg) <= List.length (rows pg))%nat
  /\ forall line,
       In line (get_cart_items pg) ->
       0 <= price line
       /\ exists cell0 cell1 others run,
            In (cell0 :: cell1 :: others) (rows pg)
            /\ name line = strip cell0
            /\ price_text line = strip cell1
            /\ re_search_digits (remove_char ","%char cell1) = Some run
            /\ price line = digits_value run.
Proof.
  rewrite get_cart_items_kept. destruct (table_present pg).
  - split; [apply kept_length|].
    intros line Hin. apply kept_In in Hin as [r [Hr Hread]].
    destruct (read_row_fields r line Hread)
      as [Hprice (cell0 & cell1 & others & run & -> & H)].
    split; [exact Hprice|]. exists cell0, cell1, others, run.
    split; [exact Hr | exact H].
  - split; [simpl; lia | intros line []].
Qed.

Lemma sum_of_prices_app (a b : list cart_item) :
  sum_of_prices (a ++ b) = sum_of_prices a + sum_of_prices b.
Proof. induction a as [|l a IH]; simpl; [reflexivity | rewrite IH; lia]. Qed.

Lemma sum_of_prices_nonneg (lines : list cart_item) :
  (forall line, In line lines -> 0 <= price line) -> 0 <= sum_of_prices lines.
Proof.
  induction lines as [|l lines IH]; intros H; simpl; [lia|].
  assert (0 <= price l) by (apply H; now left).
  assert (0 <= sum_of_prices lines) by (apply IH; intros; apply H; now right).
  lia.
Qed.

Lemma expected_total_kept (pg : page) :
  calculate_expected_total pg
  = if table_present pg then sum_of_prices (kept read_row (rows pg)) else 0.
Proof.
  unfold calculate_expected_total.
  rewrite py_sum_prices, get_cart_items_kept.
  now destruct (table_present pg).
Qed.

(** X15.  The expected total of a cart whose rows are [a] followed by [b]
    is the expected total of [a] plus that of [b]; it is never negative, and
    it is 0 when the cart table does not show up. *)
Theorem expected_total_adds_up (pg : page) (a b : list row) :
  calculate_expected_total (with_rows pg (a ++ b))
  = calculate_expected_total (with_rows pg a)
    + calculate_expected_total (with_rows pg b)
  /\ 0 <= calculate_expected_total pg
  /\ (table_present pg = false -> calculate_expected_total pg = 0).
Proof.
  rewrite !expected_total_kept. simpl. split; [|split].
  - destruct (table_present pg); [|reflexivity].
    now rewrite kept_app, sum_of_prices_app.
  - destruct (table_present pg); [|lia].
    apply sum_of_prices_nonneg. intros line Hin.
    apply kept_In in Hin as [r [_ Hread]].
    now apply (read_row_fields r line).
  - now intros ->.
Qed.

Lemma remove_char_decimal (x : ascii) (g : text) :
  isdecimal x = false -> all_decimal g -> remove_char x g = g.
Proof.
  intros Hx Hg. unfold remove_char.
  induction Hg as [|c g Hc _ IH]; simpl; [reflexivity|].
  destruct (Ascii.eqb c x) eqn:E; simpl; [|now rewrite IH].
  apply Ascii.eqb_eq in E. congruence.
Qed.

Lemma all_decimal_app (a b : text) :
  all_decimal a -> all_decimal b -> all_decimal (a ++ b).
Proof. unfold all_decimal. intros Ha Hb. apply Forall_app. now split. Qed.

(** X16.  In the text of the total, a comma between two groups of digits
    joins them into one number, while any other separator ends the number:
    ["1,234"] is read as 1234 and ["1.234"] or ["1 234"] as 1.  The digits
    read, of both groups in the first case and of the first group in the
    second, are at most [int_max_str_digits]. *)
Theorem displayed_total_joins_comma_groups
  (pg : page) (pre g1 g2 post : text) (sep : ascii) :
  total_text pg = Some (pre ++ g1 ++ sep :: g2 ++ post) ->
  no_decimal pre ->
  g1 <> [] -> all_decimal g1 -> g2 <> [] -> all_decimal g2 ->
  isdecimal sep = false ->
  (sep = ","%char ->
   digit_free_start (remove_char ","%char post) ->
   (List.length g1 + List.length g2 <= int_max_str_digits)%nat ->
   get_displayed_total pg = digits_value (g1 ++ g2))
  /\ (sep <> ","%char ->
      (List.length g1 <= int_max_str_digits)%nat ->
      get_displayed_total pg = digits_value g1).
Proof.
  intros Htext Hpre Hne1 Hd1 Hne2 Hd2 Hsep.
  unfold get_displayed_total. rewrite Htext, re_search_digits_strip.
  assert (Hcomma : isdecimal ","%char = false) by reflexivity.
  rewrite remove_char_app, remove_char_app,
    (remove_char_decimal _ g1 Hcomma Hd1).
  split.
  - intros -> Hpost Hlen.
    replace (remove_char "," ("," :: g2 ++ post))%char
      with (g2 ++ remove_char "," post)
      by (unfold remove_char at 2; simpl;
          fold (remove_char "," (g2 ++ post));
          now rewrite remove_char_app, (remove_char_decimal _ g2 Hcomma Hd2)).
    assert (Hne : g1 ++ g2 <> []) by (destruct g1; [congruence | discriminate]).
    rewrite (re_search_digits_found _ (remove_char "," pre) (g1 ++ g2)
               (remove_char "," post)).
    + rewrite py_int_decimal; [reflexivity | exact Hne | |].
      * now apply all_decimal_app.
      * now rewrite length_app.
    + now rewrite <- !app_assoc.
    + now apply no_decimal_remove_char.
    + exact Hne.
    + now apply all_decimal_app.
    + exact Hpost.
  - intros Hother Hlen.
    replace (remove_char "," (sep :: g2 ++ post))
      with (sep :: remove_char "," (g2 ++ post)).
    + rewrite (re_search_digits_found _ (remove_char "," pre) g1
                 (sep :: remove_char "," (g2 ++ post))); try assumption.
      * now rewrite py_int_decimal.
      * reflexivity.
      * now apply no_decimal_remove_char.
    + unfold remove_char at 2. simpl.
      destruct (Ascii.eqb sep ",") eqn:E; [|reflexivity].
      apply Ascii.eqb_eq in E. contradiction.
Qed.

Lemma displayed_total_joins_comma_groups_witness :
  let with_total t := {| table_present := true; rows := [];
                         total_text := Some t |} in
  get_displayed_total (with_total (py "Total: Rupees 1,234")) = 1234
  /\ get_displayed_total (with_total (py "Total: Rupees 1.234")) = 1.
Proof.
  intros with_total. split.
  - apply (displayed_total_joins_comma_groups
             (with_total (py "Total: Rupees 1,234"))
             (py "Total: Rupees ") (py "1") (py "234") [] ","%char);
      try reflexivity; try discriminate;
      try (apply Forall_forall; apply forallb_forall; reflexivity);
      try (apply Nat.leb_le; reflexivity).
    apply has_no_decimal_iff. reflexivity.
  - apply (displayed_total_joins_comma_groups
             (with_total (py "Total: Rupees 1.234"))
             (py "Total: Rupees ") (py "1") (py "234") [] "."%char);
      try reflexivity; try discriminate;
      try (apply Forall_forall; apply forallb_forall; reflexivity);
      try (apply Nat.leb_le; reflexivity).
    apply has_no_decimal_iff. reflexivity.
Defined.

End CartPageMore.

(** ** The cart check of the test *)

Section TestHappyPathFacts.
Import PyStr Py CartPage TestHappyPath.

(** What the waiting loop returns. *)
Lemma wait_for_items_outcome
  (reads : nat -> page) (attempts next : nat) (current : list cart_item) :
  match wait_for_items reads next attempts current with
  | (true, next', items) =>
      exists k, (next <= k < next + attempts)%nat
                /\ next' = S k
                /\ items = get_cart_items (reads k)
                /\ (2 <= items_at reads k)%nat
  | (false, next', items) =>
      next' = (next + attempts)%nat
      /\ (forall j, (next <= j < next + attempts)%nat ->
                    (items_at reads j < 2)%nat)
      /\ (attempts = O -> items = current)
      /\ (attempts <> O ->
          items = get_cart_items (reads (next + attempts - 1)%nat))
  end.
Proof.
  unfold items_at. revert next current.
  induction attempts as [|attempts IH]; intros next current;
    cbn [wait_for_items].
  - repeat split; try lia; auto.
  - destruct (Nat.leb_spec 2 (List.length (get_cart_items (reads next))))
      as [Hle | Hlt].
    + exists next. repeat split; try lia.
    + specialize (IH (S next) (get_cart_items (reads next))).
      destruct (wait_for_items reads (S next) attempts
                  (get_cart_items (reads next))) as [[[|] next'] items].
      * destruct IH as [k [Hk H]]. exists k. split; [lia | exact H].
      * destruct IH as [Hn [Hall [H0 Hpos]]]. repeat split; try lia.
        -- intros j Hj.
           destruct (Nat.eq_dec j next) as [-> | Hne]; [exact Hlt|].
           apply Hall. lia.
        -- intros _. destruct attempts as [|attempts'].
           ++ rewrite H0 by reflexivity. f_equal. f_equal. lia.
           ++ rewrite Hpos by discriminate. f_equal. f_equal. lia.
Qed.

(** X17.  When the cart check lets the test go on to pay, it has read, at
    most 17 reads into the check, a cart of exactly two lines, then an
    expected total, then a displayed total equal to it. *)
Theorem proceed_to_payment_sound (reads : nat -> page) (total : Z) :
  validate_cart reads = ProceedToPayment total ->
  exists next,
    (1 <= next <= 16)%nat
    /\ items_at reads next = 2%nat
    /\ calculate_expected_total (reads (S next)) = total
    /\ get_displayed_total (reads (S (S next))) = total.
Proof.
  unfold validate_cart. pose proof (wait_for_items_outcome reads 15 1 []) as Hw.
  unfold items_at in *.
  destruct (if (List.length (get_cart_items (reads 0%nat)) <? 2)%nat
            then wait_for_items reads 1 15 []
            else (true, 1%nat, get_cart_items (reads 0%nat)))
    as [[arrived next] current] eqn:E.
  destruct arrived; [|discriminate].
  assert (Hnext : (1 <= next <= 16)%nat).
  { destruct (List.length (get_cart_items (reads 0%nat)) <? 2)%nat.
    - rewrite E in Hw. destruct Hw as [k [Hk [-> _]]]. lia.
    - injection E as <- _. lia. }
  cbn [negb].
  destruct (Nat.eqb_spec (List.length (get_cart_items (reads next))) 2)
    as [Hlen | Hlen]; [|discriminate]. cbn [negb].
  destruct (Z.eqb_spec (calculate_expected_total (reads (S next)))
              (get_displayed_total (reads (S (S next))))) as [Heq | Hneq];
    [|discriminate].
  intros H. injection H as <-.
  exists next. repeat split; auto; lia.
Qed.

Lemma proceed_to_payment_sound_witness :
  let empty := {| table_present := true; rows := [];
                  total_text := Some (py "Total: Rupees 0") |} in
  let full := {| table_present := true;
                 rows := [[py "Aloe Gel"; py "150"];
                          [py "Almond Oil"; py "350"]];
                 total_text := Some (py "Total: Rupees 500") |} in
  let reads := fun k => if (k <? 3)%nat then empty else full in
  validate_cart reads = ProceedToPayment 500
  /\ exists next,
       (1 <= next <= 16)%nat
       /\ items_at reads next = 2%nat
       /\ calculate_expected_total (reads (S next)) = 500
       /\ get_displayed_total (reads (S (S next))) = 500.
Proof.
  intros empty full reads. split; [reflexivity|].
  apply (proceed_to_payment_sound reads 500). reflexivity.
Defined.

(** X18.  The cart check gives up with "found N after waiting" exactly
    when each of its first sixteen reads of the cart, the initial one and
    the fifteen of the loop, finds fewer than two lines; N is then what the
    last of them found. *)
Theorem cart_check_gives_up_iff (reads : nat -> page) :
  ((exists found, validate_cart reads = FailedAfterWaiting found)
   <-> forall k, (k <= 15)%nat -> (items_at reads k < 2)%nat)
  /\ forall found, validate_cart reads = FailedAfterWaiting found ->
                   found = items_at reads 15.
Proof.
  unfold validate_cart.
  pose proof (wait_for_items_outcome reads 15 1 []) as Hw.
  unfold items_at in *.
  destruct (Nat.ltb_spec (List.length (get_cart_items (reads 0%nat))) 2)
    as [H0 | H0].
  - destruct (wait_for_items reads 1 15 []) as [[[|] next] current]; simpl.
    + destruct Hw as [k [Hk [-> [-> Hfull]]]].
      assert (Hnot : forall found,
                 (if negb (items_at reads (S k) =? 2)%nat
                  then FailedItemCount (items_at reads (S k))
                  else
                    if calculate_expected_total (reads (S (S k)))
                       =? get_displayed_total (reads (S (S (S k))))
                    then ProceedToPayment
                           (calculate_expected_total (reads (S (S k))))
                    else FailedTotal
                           (calculate_expected_total (reads (S (S k))))
                           (get_displayed_total (reads (S (S (S k))))))
                 <> FailedAfterWaiting found).
      { intros found. destruct (negb _); [discriminate|].
        destruct (_ =? _); discriminate. }
      split; [split|].
      * intros [found H]. now apply Hnot in H.
      * intros Hall. specialize (Hall k). lia.
      * intros found H. now apply Hnot in H.
    + destruct Hw as [_ [Hall [_ Hlast]]]. split; [split|].
      * intros _ k Hk. destruct k as [|k]; [exact H0 | apply Hall; lia].
      * intros _. now eexists.
      * intros found H. injection H as <-. now rewrite Hlast by discriminate.
  - simpl.
    assert (Hnot : forall found,
               (if negb (items_at reads 1 =? 2)%nat
                then FailedItemCount (items_at reads 1)
                else
                  if calculate_expected_total (reads 2%nat)
                     =? get_displayed_total (reads 3%nat)
                  then ProceedToPayment (calculate_expected_total (reads 2%nat))
                  else FailedTotal (calculate_expected_total (reads 2%nat))
                         (get_displayed_total (reads 3%nat)))
               <> FailedAfterWaiting found).
    { intros found. destruct (negb _); [discriminate|].
      destruct (_ =? _); discriminate. }
    split; [split|].
    + intros [found H]. now apply Hnot in H.
    + intros Hall. specialize (Hall 0%nat). lia.
    + intros found H. now apply Hnot in H.
Qed.

(** X19.  On a cart page that no longer changes, the cart check lets the
    test go on to pay exactly when the snapshot has two lines and the sum of
    their prices equals the displayed total; a snapshot of three or more
    lines fails the count assertion. *)
Theorem cart_check_on_stable_page (pg : page) (total : Z) :
  (validate_cart (fun _ => pg) = ProceedToPayment total
   <-> List.length (get_cart_items pg) = 2%nat
       /\ sum_of_prices (get_cart_items pg) = total
       /\ get_displayed_total pg = total)
  /\ ((2 < List.length (get_cart_items pg))%nat ->
      validate_cart (fun _ => pg)
      = FailedItemCount (List.length (get_cart_items pg))).
Proof.
  unfold validate_cart.
  pose proof (wait_for_items_outcome (fun _ => pg) 15 1 []) as Hw.
  unfold items_at in Hw.
  unfold calculate_expected_total. rewrite py_sum_prices.
  destruct (Nat.ltb_spec (List.length (get_cart_items pg)) 2) as [H0 | H0].
  - destruct (wait_for_items (fun _ => pg) 1 15 []) as [[[|] next] current].
    + destruct Hw as [k [_ [_ [_ Hfull]]]]. lia.
    + simpl. split; [|lia]. split; [discriminate | lia].
  - simpl.
    destruct (Nat.eqb_spec (List.length (get_cart_items pg)) 2) as [H2 | H2];
      simpl.
    + split; [|lia].
      destruct (Z.eqb_spec (sum_of_prices (get_cart_items pg))
                  (get_displayed_total pg)) as [Heq | Hneq].
      * split.
        -- intros H. injection H as <-. auto.
        -- intros [_ [<- _]]. reflexivity.
      * split; [discriminate|]. intros [_ [H1 H3]]. congruence.
    + split; [|reflexivity]. split; [discriminate | tauto].
Qed.

End TestHappyPathFacts.

(** ** [PaymentPage], continued *)

Section PaymentFormFacts.
Import PyStr Py PaymentForm.

Lemma after_nothing (d : driver) : after d (context d) [] = d.
Proof. destruct d. unfold after. simpl. now rewrite app_nil_r. Qed.

(** X20.  [wait_for_payment_form] never raises and always leaves the
    driver in the top-level context with nothing typed; it answers [True]
    exactly when it was called from the top level, the Stripe iframe could
    be entered, and the frame shows an email input. *)
Theorem wait_for_payment_form_outcome (pg : page) (d : driver) :
  exists loaded,
    wait_for_payment_form pg d = (Ok loaded, after d Top [])
    /\ (loaded = true <->
        context d = Top
        /\ exists f, stripe_frame pg = Some f
                     /\ switchable f = true
                     /\ contents f CSS_EMAIL_INPUT <> None).
Proof.
  cbv beta iota delta [wait_for_payment_form try_except bind
    wait_frame_and_switch wait_presence locate default_content switch_to
    modify raise ret after].
  rewrite app_nil_r.
  destruct (context d) eqn:C; [destruct (stripe_frame pg) as [f|] eqn:F;
    [destruct (switchable f) eqn:Sw;
      [cbn; destruct (contents f CSS_EMAIL_INPUT) eqn:E|]|]|]; cbn.
  - exists true. split; [reflexivity|]. split; [|reflexivity].
    intros _. split; [reflexivity|]. exists f. repeat split; congruence.
  - exists false. split; [reflexivity|]. split; [discriminate|].
    intros [_ [g [Hg [_ Hc]]]]. congruence.
  - exists false. split; [reflexivity|]. split; [discriminate|].
    intros [_ [g [Hg [Hs _]]]]. congruence.
  - exists false. split; [reflexivity|]. split; [discriminate|].
    intros [_ [g [Hg _]]]. discriminate.
  - exists false. split; [reflexivity|]. split; [discriminate|].
    intros [H _]. discriminate.
Qed.

Lemma scan_iframes_outcome (pg : page) (found : list iframe) (d : driver) :
  match scan_iframes pg found d with
  | (Ok true, d') =>
      exists skipped f rest,
        found = skipped ++ f :: rest
        /\ forallb (fun g => negb (holds_payment_field g)) skipped = true
        /\ holds_payment_field f = true
        /\ d' = after d (InFrame f) []
  | (Ok false, d') =>
      forallb (fun g => negb (holds_payment_field g)) found = true
      /\ d' = after d (match found with [] => context d | _ => Top end) []
  | (Raise _, _) => False
  end.
Proof.
  revert d. induction found as [|f found IH]; intros d.
  - simpl. split; [reflexivity | now rewrite after_nothing].
  - assert (Hskip :
      holds_payment_field f = false ->
      match scan_iframes pg found {| context := Top; actions := actions d |} with
      | (Ok true, d') =>
          exists skipped g rest,
            f :: found = skipped ++ g :: rest
            /\ forallb (fun g => negb (holds_payment_field g)) skipped = true
            /\ holds_payment_field g = true
            /\ d' = after d (InFrame g) []
      | (Ok false, d') =>
          forallb (fun g => negb (holds_payment_field g)) (f :: found) = true
          /\ d' = after d Top []
      | (Raise _, _) => False
      end).
    { intros Hf.
      specialize (IH {| context := Top; actions := actions d |}).
      destruct (scan_iframes pg found _) as [[[|]|e] d']; [| |exact IH].
      - destruct IH as (skipped & g & rest & -> & Hs & Hg & ->).
        exists (f :: skipped), g, rest. simpl. rewrite Hf. simpl.
        repeat split; assumption.
      - destruct IH as [Hall ->]. simpl. rewrite Hf. simpl.
        split; [exact Hall|]. unfold after. simpl. now destruct found. }
    cbn [scan_iframes].
    cbv beta iota delta [bind is_element_present locate switch_to
      default_content modify ret].
    unfold holds_payment_field in Hskip at 1.
    destruct (switchable f) eqn:Sw; cbn.
    + destruct (contents f EMAIL_FIELD) eqn:E; cbn.
      * exists [], f, found. unfold holds_payment_field.
        rewrite Sw, E. repeat split. unfold after. now rewrite app_nil_r.
      * destruct (contents f CARD_NUMBER_FIELD) eqn:C; cbn.
        -- exists [], f, found. unfold holds_payment_field.
           rewrite Sw, E, C. repeat split. unfold after. now rewrite app_nil_r.
        -- now apply Hskip.
    + now apply Hskip.
Qed.

(** X21.  Called from the top level, [switch_to_stripe_iframe_if_needed]
    never raises and types nothing.  It answers [True] exactly when some
    iframe can be entered and shows the email or the card number field, and
    the driver is then left inside the first such iframe; it answers
    [False] otherwise, with the driver at the top level. *)
Theorem switch_to_stripe_iframe_outcome (pg : page) (d : driver) :
  context d = Top ->
  match switch_to_stripe_iframe_if_needed pg d with
  | (Ok true, d') =>
      exists skipped f rest,
        iframes pg = skipped ++ f :: rest
        /\ forallb (fun g => negb (holds_payment_field g)) skipped = true
        /\ holds_payment_field f = true
        /\ d' = after d (InFrame f) []
  | (Ok false, d') =>
      forallb (fun g => negb (holds_payment_field g)) (iframes pg) = true
      /\ d' = after d Top []
  | (Raise _, _) => False
  end.
Proof.
  intros Hd. unfold switch_to_stripe_iframe_if_needed. rewrite Hd.
  pose proof (scan_iframes_outcome pg (iframes pg) d) as H.
  destruct (scan_iframes pg (iframes pg) d) as [[[|]|e] d']; try exact H.
  destruct H as [Hall ->]. split; [exact Hall|].
  rewrite Hd. now destruct (iframes pg).
Qed.

Lemma switch_to_stripe_iframe_outcome_witness :
  let empty := fun _ : locator => @None handle in
  let ad := {| frame_element := 1%nat; switchable := true;
               contents := empty |} in
  let stripe := {| frame_element := 2%nat; switchable := true;
                   contents := fun l => match l with
                                        | CARD_NUMBER_FIELD => Some 20%nat
                                        | _ => None
                                        end |} in
  let pg := {| top_level := empty; iframes := [ad; stripe];
               stripe_frame := Some stripe |} in
  let d := {| context := Top; actions := [] |} in
  switch_to_stripe_iframe_if_needed pg d
  = (Ok true, {| context := InFrame stripe; actions := [] |})
  /\ match switch_to_stripe_iframe_if_needed pg d with
     | (Ok true, d') =>
         exists skipped f rest,
           iframes pg = skipped ++ f :: rest
           /\ forallb (fun g => negb (holds_payment_field g)) skipped = true
           /\ holds_payment_field f = true
           /\ d' = after d (InFrame f) []
     | (Ok false, d') =>
         forallb (fun g => negb (holds_payment_field g)) (iframes pg) = true
         /\ d' = after d Top []
     | (Raise _, _) => False
     end.
Proof.
  intros empty ad stripe pg d. split; [reflexivity|].
  apply (switch_to_stripe_iframe_outcome pg d). reflexivity.
Defined.

(** *** Filling the form *)

Lemma range_from_In (count start step i : nat) :
  In i (range_from count start step)
  <-> exists k, (k < count)%nat /\ i = (start + k * step)%nat.
Proof.
  revert start. induction count as [|count IH]; intros start; simpl.
  - split; [intros [] | intros [k [Hk _]]; lia].
  - rewrite IH. split.
    + intros [<- | [k [Hk ->]]]; [exists 0%nat | exists (S k)]; split; lia.
    + intros [[|k] [Hk ->]]; [left; lia | right; exists k; split; lia].
Qed.

Lemma range_from_length (count start step : nat) :
  List.length (range_from count start step) = count.
Proof.
  revert start. induction count as [|count IH]; intros start; simpl;
    [reflexivity | now rewrite IH].
Qed.

Lemma chunks_concat (s : text) (count start : nat) :
  (List.length s <= start + 4 * count)%nat ->
  List.concat (map (fun i => slice s i (i + 4)) (range_from count start 4))
  = skipn start s.
Proof.
  revert start. induction count as [|count IH]; intros start H; simpl.
  - symmetry. apply skipn_all2. lia.
  - rewrite IH by lia. unfold slice.
    replace (start + 4 - start)%nat with 4%nat by lia.
    replace (start + 4)%nat with (4 + start)%nat by lia.
    rewrite <- skipn_skipn. apply firstn_skipn.
Qed.

(** X22.  The chunks [fill_payment_form] types into the card field, put
    end to end, are the card number without its spaces; there are
    [ceil(n / 4)] of them for [n] characters, none is empty and none is
    longer than four characters. *)
Theorem card_chunks_rejoin (card : text) :
  List.concat (card_chunks card) = remove_char " "%char card
  /\ List.length (card_chunks card)
     = ((List.length (remove_char " "%char card) + 3) / 4)%nat
  /\ Forall (fun chunk => (1 <= List.length chunk <= 4)%nat)
       (card_chunks card).
Proof.
  unfold card_chunks, py_range.
  set (s := remove_char " "%char card).
  replace (List.length s + 4 - 1)%nat with (List.length s + 3)%nat by lia.
  pose proof (Nat.div_mod (List.length s + 3) 4) as Hdiv.
  pose proof (Nat.mod_upper_bound (List.length s + 3) 4) as Hmod.
  split; [|split].
  - rewrite chunks_concat; [reflexivity | lia].
  - now rewrite length_map, range_from_length.
  - apply Forall_forall. intros chunk Hin.
    apply in_map_iff in Hin as [i [<- Hi]].
    apply range_from_In in Hi as [k [Hk ->]].
    unfold slice. rewrite length_firstn, length_skipn. lia.
Qed.

Lemma for_each_acts {A} (l : list A) (body : A -> M driver unit)
  (g : A -> action) (d : driver) :
  (forall x d, body x d = (Ok tt, after d (context d) [g x])) ->
  for_each l body d = (Ok tt, after d (context d) (map g l)).
Proof.
  intros Hbody. revert d. induction l as [|x l IH]; intros d; simpl.
  - unfold ret. now rewrite after_nothing.
  - unfold bind. rewrite Hbody, IH. unfold after. simpl.
    now rewrite <- app_assoc.
Qed.

Lemma wait_for_payment_form_loaded (pg : page) (d : driver) (f : iframe) (e : handle) :
  context d = Top ->
  stripe_frame pg = Some f -> switchable f = true ->
  contents f CSS_EMAIL_INPUT = Some e ->
  wait_for_payment_form pg d = (Ok true, after d Top []).
Proof.
  intros Hd Hf Hs He.
  cbv beta iota delta [wait_for_payment_form try_except bind
    wait_frame_and_switch wait_presence locate default_content switch_to
    modify raise ret after].
  rewrite Hd, Hf, Hs. cbn. rewrite He. cbn. now rewrite app_nil_r.
Qed.

Ltac same_actions :=
  unfold after; cbn; rewrite ?app_nil_r;
  repeat (rewrite <- app_assoc; cbn); rewrite ?app_nil_r; reflexivity.

#[local] Arguments card_chunks : simpl never.
#[local] Arguments exp_digits : simpl never.
#[local] Arguments slice : simpl never.
#[local] Arguments skipn : simpl never.

(** How [fill_payment_form] runs once the form has loaded. *)
Lemma fill_payment_form_run
  (pg : page) (d : driver) (f : iframe) (e : handle)
  (email card exp cvc zip_code : text) :
  context d = Top ->
  stripe_frame pg = Some f -> switchable f = true ->
  contents f CSS_EMAIL_INPUT = Some e ->
  fill_payment_form pg email card exp cvc zip_code d
  = match contents f CSS_CARD_INPUT with
    | None =>
        (Raise NoSuchElementException,
         after d (InFrame f) [Clear e; SendKeys e email])
    | Some c =>
        match contents f CSS_EXPIRY_INPUT with
        | None =>
            (Raise NoSuchElementException,
             after d (InFrame f)
               ([Clear e; SendKeys e email] ++ card_actions c card))
        | Some x =>
            match contents f CSS_CVC_INPUT with
            | None =>
                (Raise NoSuchElementException,
                 after d (InFrame f)
                   ([Clear e; SendKeys e email] ++ card_actions c card
                    ++ expiry_actions x exp))
            | Some v =>
                (Ok tt,
                 after d Top
                   ([Clear e; SendKeys e email] ++ card_actions c card
                    ++ expiry_actions x exp ++ cvc_actions v cvc
                    ++ match contents f CSS_ZIP_INPUT with
                       | Some z => [Clear z; SendKeys z zip_code]
                       | None => []
                       end))
            end
        end
    end.
Proof.
  intros Hd Hf Hs He.
  unfold fill_payment_form. unfold bind at 1.
  rewrite (wait_for_payment_form_loaded pg d f e Hd Hf Hs He). cbn [negb].
  cbv beta iota delta [bind wait_frame_and_switch find_element locate
    switch_to act modify raise ret after try_except default_content].
  cbn. rewrite Hf, Hs. cbn. rewrite He. cbn.
  destruct (contents f CSS_CARD_INPUT) as [c|]; cbn; [|same_actions].
  rewrite (for_each_acts _ _ (SendKeys c)) by reflexivity. cbn.
  unfold card_actions, expiry_actions, cvc_actions, after. cbn.
  destruct (contents f CSS_EXPIRY_INPUT) as [x|]; cbn; [|same_actions].
  destruct (contents f CSS_CVC_INPUT) as [v|]; cbn; [|same_actions].
  destruct (contents f CSS_ZIP_INPUT) as [z|]; cbn; same_actions.
Qed.

(** X23.  When the Stripe frame can be entered from the top level and
    shows the email, card, expiry and CVC inputs, [fill_payment_form]
    returns with the driver back at the top level, having cleared and typed
    each field in that order: the email; the card number in its chunks; the
    first four characters of the expiry without slashes and spaces, as its
    first two characters, then the rest, then TAB; the CVC, then TAB; and
    the postal code if the frame shows that input. *)
Theorem fill_payment_form_types_fields
  (pg : page) (d : driver) (f : iframe) (e c x v : handle)
  (email card exp cvc zip_code : text) :
  context d = Top ->
  stripe_frame pg = Some f -> switchable f = true ->
  contents f CSS_EMAIL_INPUT = Some e ->
  contents f CSS_CARD_INPUT = Some c ->
  contents f CSS_EXPIRY_INPUT = Some x ->
  contents f CSS_CVC_INPUT = Some v ->
  fill_payment_form pg email card exp cvc zip_code d
  = (Ok tt,
     after d Top
       ([Clear e; SendKeys e email] ++ card_actions c card
        ++ expiry_actions x exp ++ cvc_actions v cvc
        ++ match contents f CSS_ZIP_INPUT with
           | Some z => [Clear z; SendKeys z zip_code]
           | None => []
           end))
  /\ slice (exp_digits exp) 0 2 ++ skipn 2 (exp_digits exp)
     = slice (remove_char " "%char (remove_char "/"%char exp)) 0 4.
Proof.
  intros Hd Hf Hs He Hc Hx Hv. split.
  - rewrite (fill_payment_form_run pg d f e email card exp cvc zip_code
               Hd Hf Hs He).
    now rewrite Hc, Hx, Hv.
  - unfold slice. cbn [Nat.sub skipn]. apply firstn_skipn.
Qed.

Lemma fill_payment_form_types_fields_witness :
  let inputs := fun l => match l with
                         | CSS_EMAIL_INPUT => Some 1%nat
                         | CSS_CARD_INPUT => Some 2%nat
                         | CSS_EXPIRY_INPUT => Some 3%nat
                         | CSS_CVC_INPUT => Some 4%nat
                         | _ => None
                         end in
  let stripe := {| frame_element := 9%nat; switchable := true;
                   contents := inputs |} in
  let pg := {| top_level := fun _ => None; iframes := [stripe];
               stripe_frame := Some stripe |} in
  let d := {| context := Top; actions := [] |} in
  fst (fill_payment_form pg (py "a@b.c") (py "4242 4242 42") (py "12/34")
         (py "123") (py "12345") d) = Ok tt
  /\ actions (snd (fill_payment_form pg (py "a@b.c") (py "4242 4242 42")
                     (py "12/34") (py "123") (py "12345") d))
     = [Clear 1%nat; SendKeys 1%nat (py "a@b.c");
        Clear 2%nat; SendKeys 2%nat (py "4242"); SendKeys 2%nat (py "4242");
        SendKeys 2%nat (py "42");
        Clear 3%nat; SendKeys 3%nat (py "12"); SendKeys 3%nat (py "34");
        SendTab 3%nat;
        Clear 4%nat; SendKeys 4%nat (py "123"); SendTab 4%nat].
Proof.
  intros inputs stripe pg d.
  destruct (fill_payment_form_types_fields pg d stripe 1%nat 2%nat 3%nat 4%nat
              (py "a@b.c") (py "4242 4242 42") (py "12/34") (py "123")
              (py "12345") eq_refl eq_refl eq_refl eq_refl eq_refl eq_refl
              eq_refl) as [H _].
  rewrite H. split; reflexivity.
Defined.

(** X24.  When the form has loaded but the frame lacks the card, the
    expiry or the CVC input, [fill_payment_form] raises
    [NoSuchElementException] and the driver is left inside the Stripe
    frame: this method does not go back to the top level on its way out. *)
Theorem fill_payment_form_stays_in_frame_on_failure
  (pg : page) (d : driver) (f : iframe) (e : handle)
  (email card exp cvc zip_code : text) :
  context d = Top ->
  stripe_frame pg = Some f -> switchable f = true ->
  contents f CSS_EMAIL_INPUT = Some e ->
  contents f CSS_CARD_INPUT = None
  \/ contents f CSS_EXPIRY_INPUT = None
  \/ contents f CSS_CVC_INPUT = None ->
  fst (fill_payment_form pg email card exp cvc zip_code d)
  = Raise NoSuchElementException
  /\ context (snd (fill_payment_form pg email card exp cvc zip_code d))
     = InFrame f.
Proof.
  intros Hd Hf Hs He Hmissing.
  rewrite (fill_payment_form_run pg d f e email card exp cvc zip_code
             Hd Hf Hs He).
  destruct (contents f CSS_CARD_INPUT) as [c|]; [|now split].
  destruct (contents f CSS_EXPIRY_INPUT) as [x|]; [|now split].
  destruct (contents f CSS_CVC_INPUT) as [v|]; [|now split].
  destruct Hmissing as [H | [H | H]]; discriminate.
Qed.

Lemma fill_payment_form_stays_in_frame_on_failure_witness :
  let inputs := fun l => match l with
                         | CSS_EMAIL_INPUT => Some 1%nat
                         | CSS_CARD_INPUT => Some 2%nat
                         | _ => None
                         end in
  let stripe := {| frame_element := 9%nat; switchable := true;
                   contents := inputs |} in
  let pg := {| top_level := fun _ => None; iframes := [stripe];
               stripe_frame := Some stripe |} in
  let d := {| context := Top; actions := [] |} in
  fst (fill_payment_form pg (py "a@b.c") (py "4242") (py "1234") (py "123")
         (py "12345") d) = Raise NoSuchElementException
  /\ context (snd (fill_payment_form pg (py "a@b.c") (py "4242") (py "1234")
                     (py "123") (py "12345") d)) = InFrame stripe.
Proof.
  intros inputs stripe pg d.
  apply (fill_payment_form_stays_in_frame_on_failure pg d stripe 1%nat);
    try reflexivity.
  right. left. reflexivity.
Defined.

(** X25.  When the form does not load (the driver is not at the top level,
    the Stripe frame cannot be entered, or it shows no email input),
    [fill_payment_form] raises its "did not load" exception with nothing
    typed and the driver at the top level. *)
Theorem fill_payment_form_requires_loaded_form
  (pg : page) (d : driver) (email card exp cvc zip_code : text) :
  context d <> Top
  \/ stripe_frame pg = None
  \/ (exists f, stripe_frame pg = Some f
                /\ (switchable f = false
                    \/ contents f CSS_EMAIL_INPUT = None)) ->
  fill_payment_form pg email card exp cvc zip_code d
  = (Raise (PyException
              (py "Payment form did not load properly within expected time.")),
     after d Top []).
Proof.
  intros H.
  assert (Hwait : wait_for_payment_form pg d = (Ok false, after d Top [])).
  { cbv beta iota delta [wait_for_payment_form try_except bind
      wait_frame_and_switch wait_presence locate default_content switch_to
      modify raise ret after].
    rewrite app_nil_r.
    destruct (context d) eqn:C; [|reflexivity].
    destruct (stripe_frame pg) as [f|] eqn:F; [|reflexivity].
    destruct (switchable f) eqn:Sw; [|reflexivity]. cbn.
    destruct (contents f CSS_EMAIL_INPUT) eqn:E; [|reflexivity].
    destruct H as [H | [H | [g [Hg [H | H]]]]]; congruence. }
  unfold fill_payment_form. unfold bind at 1. rewrite Hwait. reflexivity.
Qed.

Lemma fill_payment_form_requires_loaded_form_witness :
  let pg := {| top_level := fun _ => None; iframes := [];
               stripe_frame := None |} in
  let d := {| context := Top; actions := [] |} in
  fill_payment_form pg (py "a@b.c") (py "4242") (py "1234") (py "123")
    (py "12345") d
  = (Raise (PyException
              (py "Payment form did not load properly within expected time.")),
     after d Top []).
Proof.
  intros pg d.
  apply (fill_payment_form_requires_loaded_form pg d).
  right. left. reflexivity.
Defined.

(** *** The single-field methods *)

Lemma is_element_present_run (pg : page) (l : locator) (d : driver) :
  is_element_present pg l d
  = (Ok (match visible pg d l with Some _ => true | None => false end), d).
Proof. reflexivity. Qed.

Lemma find_element_run (pg : page) (l : locator) (d : driver) :
  find_element pg l d
  = match visible pg d l with
    | Some h => (Ok h, d)
    | None => (Raise NoSuchElementException, d)
    end.
Proof.
  cbv beta iota delta [find_element bind locate raise ret].
  fold (visible pg d l). now destruct (visible pg d l).
Qed.

Lemma send_keys_to_element_run
  (pg : page) (l : locator) (keys : text) (d : driver) (h : handle) :
  visible pg d l = Some h ->
  send_keys_to_element pg l keys d
  = (Ok h, after d (context d) [Clear h; SendKeys h keys]).
Proof.
  intros H.
  cbv beta iota delta [send_keys_to_element try_except bind wait_presence
    locate act modify raise ret after].
  fold (visible pg d l). rewrite H. cbn. now rewrite <- app_assoc.
Qed.

Lemma fill_with_fallbacks_run
  (pg : page) (primary alt xpath : locator) (keys last_keys : text)
  (d : driver) :
  fill_with_fallbacks pg primary alt xpath keys last_keys d
  = match first_found pg d [primary; alt] with
    | Some h => (Ok tt, after d (context d) [Clear h; SendKeys h keys])
    | None =>
        match visible pg d xpath with
        | Some h => (Ok tt, after d (context d) [Clear h; SendKeys h last_keys])
        | None => (Raise NoSuchElementException, d)
        end
    end.
Proof.
  unfold fill_with_fallbacks. cbn [first_found].
  unfold bind at 1. rewrite is_element_present_run.
  destruct (visible pg d primary) as [h|] eqn:P.
  - unfold bind. now rewrite (send_keys_to_element_run pg primary keys d h P).
  - unfold bind at 1. rewrite is_element_present_run.
    destruct (visible pg d alt) as [h|] eqn:A.
    + unfold bind. now rewrite (send_keys_to_element_run pg alt keys d h A).
    + unfold bind at 1. rewrite find_element_run.
      destruct (visible pg d xpath) as [h|]; [|reflexivity].
      cbv beta iota delta [bind act modify ret after]. cbn.
      now rewrite <- app_assoc.
Qed.

(** X26.  [fill_email_field], [fill_card_number_field] and
    [fill_cvc_field] clear and type into the element of the first locator
    that finds one, in the order primary, alternative, XPath; an argument
    that is missing or empty is replaced by the test value; when no locator
    finds an element they raise [NoSuchElementException] with nothing
    typed. *)
Theorem fill_field_uses_first_locator_found
  (pg : page) (value : option text) (d : driver) :
  let filled (ls : list locator) (keys : text) :=
    match first_found pg d ls with
    | Some h => (Ok tt, after d (context d) [Clear h; SendKeys h keys])
    | None => (Raise NoSuchElementException, d)
    end in
  fill_email_field pg value d
  = filled [EMAIL_FIELD; ALT_EMAIL_FIELD; XPATH_EMAIL]
      (or_default value TEST_EMAIL)
  /\ fill_card_number_field pg value d
     = filled [CARD_NUMBER_FIELD; ALT_CARD_FIELD; XPATH_CARD]
         (or_default value TEST_CARD_NUMBER)
  /\ fill_cvc_field pg value d
     = filled [CVC_FIELD; ALT_CVC_FIELD; XPATH_CVC]
         (or_default value TEST_CVC).
Proof.
  cbv zeta.
  unfold fill_email_field, fill_card_number_field, fill_cvc_field, try_except.
  rewrite !fill_with_fallbacks_run. cbn [first_found].
  repeat split;
    repeat match goal with
           | |- context [ visible pg d ?l ] => destruct (visible pg d l)
           end; reflexivity.
Qed.

(** X27.  [fill_expiry_field] types the expiry as given when the primary
    or the alternative locator finds the field, but with every ["/"]
    replaced by [" / "] when only the XPath lookup does. *)
Theorem fill_expiry_field_formats_in_fallback_only
  (pg : page) (expiry : option text) (d : driver) :
  let keys := or_default expiry TEST_EXPIRY in
  fill_expiry_field pg expiry d
  = match first_found pg d [EXPIRY_FIELD; ALT_EXPIRY_FIELD] with
    | Some h => (Ok tt, after d (context d) [Clear h; SendKeys h keys])
    | None =>
        match visible pg d XPATH_EXPIRY with
        | Some h =>
            (Ok tt,
             after d (context d) [Clear h; SendKeys h (space_slashes keys)])
        | None => (Raise NoSuchElementException, d)
        end
    end.
Proof.
  cbv zeta. unfold fill_expiry_field, try_except.
  rewrite fill_with_fallbacks_run.
  destruct (first_found pg d [EXPIRY_FIELD; ALT_EXPIRY_FIELD]);
    [reflexivity|].
  now destruct (visible pg d XPATH_EXPIRY).
Qed.

(** X28.  [fill_zip_field] never raises: it types the postal code into
    the element of the first of its three locators that finds one, and
    does nothing when none does. *)
Theorem fill_zip_field_never_raises
  (pg : page) (zip_code : option text) (d : driver) :
  fill_zip_field pg zip_code d
  = (Ok tt,
     match first_found pg d [ZIP_FIELD; ALT_ZIP_FIELD; XPATH_ZIP] with
     | Some h =>
         after d (context d)
           [Clear h; SendKeys h (or_default zip_code TEST_ZIP)]
     | None => d
     end).
Proof.
  unfold fill_zip_field, try_except. rewrite fill_with_fallbacks_run.
  cbn [first_found].
  repeat match goal with
         | |- context [ visible pg d ?l ] => destruct (visible pg d l)
         end; reflexivity.
Qed.

End PaymentFormFacts.

(** ** [PaymentPage]: the submission, continued *)

Section PaymentPageMore.
Import PyStr Py PaymentPage.

(** X29.  [submit_payment_form] clicks exactly one control when it
    returns: the Payer button if it is found and its click goes through,
    otherwise the submit control; when it raises, it has clicked
    nothing. *)
Theorem submit_payment_form_clicks_one_control (pg : page) (d : driver) :
  match submit_payment_form pg d with
  | (Ok _, d') =>
      exists button,
        clicked d' = clicked d ++ [button]
        /\ click_succeeds pg button = true
        /\ (payer_button pg = Some button
            \/ (submit_button pg = Some button
                /\ forall payer, payer_button pg = Some payer ->
                                 click_succeeds pg payer = false))
  | (Raise _, d') => clicked d' = clicked d
  end.
Proof.
  cbv beta iota delta [submit_payment_form try_except bind
    wait_frame_and_switch find_element script_click default_content switch_to
    modify raise ret].
  destruct (frame_available pg); [|reflexivity]. cbn.
  destruct (payer_button pg) as [payer|] eqn:P; cbn.
  - destruct (click_succeeds pg payer) eqn:Cp; cbn.
    + exists payer. auto.
    + destruct (submit_button pg) as [submit|] eqn:Sb; cbn; [|reflexivity].
      destruct (click_succeeds pg submit) eqn:Cs; cbn; [|reflexivity].
      exists submit. repeat split; auto. right. split; [reflexivity|].
      intros payer' H. congruence.
  - destruct (submit_button pg) as [submit|] eqn:Sb; cbn; [|reflexivity].
    destruct (click_succeeds pg submit) eqn:Cs; cbn; [|reflexivity].
    exists submit. repeat split; auto. right. split; [reflexivity|].
    intros payer' H. discriminate.
Qed.

(** X3.  [submit_payment] never raises.  It returns [True] exactly when
    the form was submitted and some poll of the confirmation wait, before
    its deadline, saw a success indicator, and it returns [False] in every
    other case. *)
Theorem submit_payment_true_or_false (pg : page) (d : driver) :
  let confirmed :=
    fst (submit_payment_form pg d) = Ok tt
    /\ exists attempt, (attempt <= further_polls pg)%nat
                       /\ success_indicator pg attempt = true in
  (fst (submit_payment pg d) = Ok true <-> confirmed)
  /\ (fst (submit_payment pg d) = Ok false <-> ~ confirmed).
Proof.
  cbv zeta.
  pose proof (submit_payment_success_iff pg d) as Htrue.
  destruct (submit_payment_definite pg d) as [outcome Hout].
  split; [exact Htrue|]. split.
  - intros Hfalse Hc. apply Htrue in Hc. congruence.
  - intros Hnot. destruct outcome; [|exact Hout].
    exfalso. apply Hnot. now apply Htrue.
Qed.

End PaymentPageMore.
